(** * midastrader: order admission, adapter lifecycle and position equality

    A shallow embedding of
      - [shared/portfolio.py]                          ([Position]),
      - [midastrader/core/adapters/order_manager.py]   ([OrderExecutionManager]),
      - [midas/core/performance/base.py]               ([PerformanceManager.process]),
      - [midastrader/core/engine.py]                   ([CoreEngine]),
    together with the properties the specification states about them. *)

From Stdlib Require Import QArith.
From stdpp Require Import base option list gmap strings pretty.

Open Scope string_scope.
Open Scope Z_scope.
Open Scope list_scope.

(** ** Python numbers

    The monetary amounts of the program are Python [int]s and [float]s.  The
    code only ever uses the literal [0], [+], [<=], [<] and [==] on them, so the
    embedding is parametric in a carrier with exactly these operations and
    assumes no algebraic law about them. *)

Class PyNum := {
  number : Type;
  py_zero : number;                       (* the literal [0] *)
  py_add : number -> number -> number;    (* [a + b] *)
  py_le : number -> number -> bool;       (* [a <= b] *)
  py_lt : number -> number -> bool;       (* [a < b] *)
  py_eq : number -> number -> bool;       (* [a == b] *)
}.

(** Exact rationals, used for the concrete runs below. *)
Definition Qlt_bool (a b : Q) : bool := negb (Qle_bool b a).

#[export] Instance Q_PyNum : PyNum := {|
  number := Q;
  py_zero := 0%Q;
  py_add := Qplus;
  py_le := Qle_bool;
  py_lt := Qlt_bool;
  py_eq := Qeq_bool;
|}.

(** ** Exceptions and results *)

Inductive Exn : Type :=
  | KeyError (key : Z)                (* [dict[key]] on a missing key *)
  | NotFound (instrument_id : Z)      (* order book miss *)
  | AttributeError (attr : string)    (* attribute missing on an object *)
  | ValueError (msg : string)
  | TypeError (msg : string)
  | RuntimeError (prefix : string) (cause : Exn).
                                      (* message: [prefix] then [str(cause)] *)

Inductive Result (A : Type) : Type :=
  | Ok (a : A)
  | Raise (e : Exn).
Arguments Ok {A} a.
Arguments Raise {A} e.

(** ** shared/portfolio.py *)

Module Portfolio.
Section WithNumbers.
Context `{PyNum}.

(** [class ActiveOrder(TypedDict)] *)
Record ActiveOrder : Type := {
  permId : Z;
  clientId : Z;
  orderId : Z;
  parentId : Z;
  account : string;
  symbol : string;
  secType : string;
  exchange : string;
  ao_action : string;
  orderType : string;
  totalQty : number;
  cashQty : number;
  lmtPrice : number;
  auxPrice : number;
  status : string;
  filled : string;
  remaining : number;
  avgFillPrice : number;
  lastFillPrice : number;
  whyHeld : string;
  mktCapPrice : number;
}.

(** [@dataclass class Position] *)
Record Position : Type := {
  action : string;
  avg_cost : number;
  quantity : number;
  total_cost : number;
  market_value : number;
  quantity_multiplier : Z;
  price_multiplier : number;
  initial_margin : number;
}.

(** The constraint validation of [Position.__post_init__]; the [isinstance]
    checks before it hold by typing. *)
Definition post_init (self : Position) : Result unit :=
  if negb (bool_decide (action self ∈ ["BUY"; "SELL"])) then
    Raise (ValueError "action must be either 'BUY' or 'SELL'")
  else if py_le (price_multiplier self) py_zero then
    Raise (ValueError "multiplier must be greater than zero")
  else if (quantity_multiplier self <=? 0)%Z then
    Raise (ValueError "multiplier must be greater than zero")
  else if py_lt (initial_margin self) py_zero then
    Raise (ValueError "initial_margin must be non-negative.")
  else Ok tt.

(** What [other] can be in [Position.__eq__(self, other)]. *)
Inductive PyObject : Type :=
  | PositionObj (p : Position)
  | NoneObj
  | StrObj (s : string).

(** [Position.__eq__] *)
Definition __eq__ (self : Position) (other : PyObject) : bool :=
  match other with
  | PositionObj other =>
      String.eqb (action self) (action other)
      && py_eq (avg_cost self) (avg_cost other)
      && py_eq (quantity self) (quantity other)
      && py_eq (price_multiplier self) (price_multiplier other)
      && (quantity_multiplier self =? quantity_multiplier other)%Z
      && py_eq (initial_margin self) (initial_margin other)
      && py_eq (total_cost self) (total_cost other)
  | _ => false
  end.

(** The fields [__eq__] reads, compared with the same [==]. *)
Definition compared_fields_equal (p q : Position) : Prop :=
  action p = action q
  /\ py_eq (avg_cost p) (avg_cost q) = true
  /\ py_eq (quantity p) (quantity q) = true
  /\ py_eq (price_multiplier p) (price_multiplier q) = true
  /\ quantity_multiplier p = quantity_multiplier q
  /\ py_eq (initial_margin p) (initial_margin q) = true
  /\ py_eq (total_cost p) (total_cost q) = true.

(** Every economic field, as the specification lists them. *)
Definition all_fields_equal (p q : Position) : Prop :=
  compared_fields_equal p q
  /\ py_eq (market_value p) (market_value q) = true.

(** [self.market_value = value] *)
Definition with_market_value (self : Position) (value : number) : Position :=
  {| action := action self; avg_cost := avg_cost self;
     quantity := quantity self; total_cost := total_cost self;
     market_value := value;
     quantity_multiplier := quantity_multiplier self;
     price_multiplier := price_multiplier self;
     initial_margin := initial_margin self |}.

(** The values of the dict that [to_dict] builds. *)
Inductive Field : Type :=
  | FStr (s : string)
  | FNum (n : number)
  | FInt (z : Z).

(** [==] on two values of the same kind. *)
Definition field_eq (a b : Field) : bool :=
  match a, b with
  | FStr s, FStr t => String.eqb s t
  | FNum n, FNum m => py_eq n m
  | FInt z, FInt y => (z =? y)%Z
  | _, _ => false
  end.

(** [Position.to_dict]: the items of the dict, in insertion order. *)
Definition to_dict (self : Position) : list (string * Field) :=
  [ ("action", FStr (action self));
    ("avg_cost", FNum (avg_cost self));
    ("quantity", FNum (quantity self));
    ("total_cost", FNum (total_cost self));
    ("market_value", FNum (market_value self));
    ("price_multiplier", FNum (price_multiplier self));
    ("quantity_multiplier", FInt (quantity_multiplier self));
    ("initial_margin", FNum (initial_margin self)) ].

(** [d[key]] for a key of the dict. *)
Definition getitem (d : list (string * Field)) (key : string) : option Field :=
  match list_find (fun item => item.1 = key) d with
  | Some (_, item) => Some item.2
  | None => None
  end.

End WithNumbers.

(** Two long positions of 10 contracts bought at 50, the second one marked
    to market at 52. *)
Definition long_at_cost : Position (H := Q_PyNum) :=
  {| action := "BUY"; avg_cost := 50%Q; quantity := 10%Q;
     total_cost := 500%Q; market_value := 500%Q;
     quantity_multiplier := 1; price_multiplier := 1%Q;
     initial_margin := 0%Q |}.

Definition long_marked_up : Position (H := Q_PyNum) :=
  with_market_value long_at_cost 520%Q.

End Portfolio.

(** ** midastrader/core/adapters/order_manager.py *)

Module OrderManager.

(** [midastrader.structs.orders.Action]; the members are the order actions
    the specification lists for a [SignalInstruction]. *)
Inductive Action : Type := LONG | COVER | SHORT | SELL | BUY.

#[export] Instance Action_eq_dec : EqDecision Action.
Proof. solve_decision. Defined.

(** [midastrader.message_bus.EventType] *)
Inductive EventType : Type :=
  | SIGNAL | ORDER | TRADE_UPDATE | TRADE_COMMISSION_UPDATE
  | ACCOUNT_UPDATE_LOG | EQUITY_UPDATE | SIGNAL_UPDATE | UPDATE_SYSTEM.

#[export] Instance EventType_eq_dec : EqDecision EventType.
Proof. solve_decision. Defined.

Section Engine.
Context `{PyNum}.

(** [ibapi.contract.Contract] and [midastrader.structs.orders.BaseOrder] are
    opaque to the order manager, which only reads [order.quantity]. *)
Variables Contract BaseOrder : Type.
Variable quantity : BaseOrder -> number.

(** One leg of a signal. *)
Record SignalInstruction : Type := {
  instrument : Z;
  action : Action;
  trade_id : Z;
  leg_id : Z;
  weight : number;
}.

(** [SignalInstruction.to_order] *)
Variable to_order : SignalInstruction -> BaseOrder.

Record SignalEvent : Type := {
  timestamp : Z;
  instructions : list SignalInstruction;
}.

Record Symbol : Type := {
  instrument_id : Z;
  contract : Contract;
}.

(** [Symbol.cost(quantity, price)]: quantity x price x the instrument's
    multipliers. *)
Variable cost : Symbol -> number -> number -> number.

(** The [order_details] dict built for each leg. *)
Record OrderDetails : Type := {
  od_timestamp : Z;
  od_trade_id : Z;
  od_leg_id : Z;
  od_action : Action;
  od_contract : Contract;
  od_order : BaseOrder;
}.

Record OrderEvent : Type := {
  oe_timestamp : Z;
  oe_trade_id : Z;
  oe_leg_id : Z;
  oe_action : Action;
  oe_contract : Contract;
  oe_order : BaseOrder;
}.

(** [OrderEvent(...)]: the class validates its fields when it is built and
    may raise; it is not among the sources, so the constructor is taken as
    it comes. *)
Variable new_order_event :
  Z -> Z -> Z -> Action -> Contract -> BaseOrder -> Result OrderEvent.

Inductive Payload : Type :=
  | BoolPayload (b : bool)
  | OrderPayload (o : OrderEvent).

(** The state of the [PortfolioServer] singleton. *)
Record PortfolioServer : Type := {
  capital : number;
  positions : gmap Z Portfolio.Position;
  active_orders : gmap Z Portfolio.ActiveOrder;
}.

(** Modelled from the spec: [PortfolioServer.get_active_order_tickers], whose
    class is not part of the sources at hand.  It returns the instruments
    with an order currently in flight, the keys of the mapping
    instrument -> active order record. *)
Definition get_active_order_tickers (ps : PortfolioServer) : list Z :=
  (map_to_list (active_orders ps)).*1.

(** Everything a call of [handle_event] can read or write: the symbol map,
    the two singletons and the message bus ([bus] lists what was published,
    oldest first).  [costed] is a ghost log of the results of [symbol.cost],
    in call order. *)
Record World : Type := {
  symbols_map : gmap Z Symbol;
  order_book : gmap Z number;
  portfolio_server : PortfolioServer;
  bus : list (EventType * Payload);
  costed : list number;
}.

(** Computations over the world that may raise. *)
Definition M (A : Type) : Type := World -> Result A * World.

Definition ret {A} (a : A) : M A := fun w => (Ok a, w).
Definition bind {A B} (m : M A) (f : A -> M B) : M B := fun w =>
  match m w with
  | (Ok a, w') => f a w'
  | (Raise e, w') => (Raise e, w')
  end.

Notation "x <- m ;; k" := (bind m (fun x => k))
  (at level 100, m at next level, right associativity).
Notation "m ;;; k" := (bind m (fun _ => k))
  (at level 100, right associativity).

Definition gets {A} (f : World -> A) : M A := fun w => (Ok (f w), w).

(** [self.symbols_map.map[instrument]] *)
Definition symbols_map_getitem (key : Z) : M Symbol := fun w =>
  match symbols_map w !! key with
  | Some symbol => (Ok symbol, w)
  | None => (Raise (KeyError key), w)
  end.

(** Modelled from the spec: [OrderBook.retrieve], whose class is not part of
    the sources at hand.  It returns the last price of the instrument and
    fails with a NotFound condition if the instrument was never priced. *)
Definition retrieve (instrument_id : Z) : M number := fun w =>
  match order_book w !! instrument_id with
  | Some price => (Ok price, w)
  | None => (Raise (NotFound instrument_id), w)
  end.

Definition with_costed (w : World) (log : list number) : World :=
  {| symbols_map := symbols_map w; order_book := order_book w;
     portfolio_server := portfolio_server w; bus := bus w;
     costed := log |}.

Definition with_bus (w : World) (published : list (EventType * Payload)) : World :=
  {| symbols_map := symbols_map w; order_book := order_book w;
     portfolio_server := portfolio_server w; bus := published;
     costed := costed w |}.

(** [symbol.cost(order.quantity, current_price)], logged in [costed]. *)
Definition symbol_cost (symbol : Symbol) (qty price : number) : M number :=
  fun w =>
    let order_cost := cost symbol qty price in
    (Ok order_cost, with_costed w (costed w ++ [order_cost])).

(** [self.bus.publish(topic, payload)] *)
Definition publish (topic : EventType) (payload : Payload) : M unit :=
  fun w => (Ok tt, with_bus w (bus w ++ [(topic, payload)])).

(** [trade.action in [Action.SELL, Action.COVER]] *)
Definition is_exit (a : Action) : bool := bool_decide (a ∈ [SELL; COVER]).

(** [OrderExecutionManager._set_order]: the [try] builds the event and
    publishes it; a [ValueError] or [TypeError] of the constructor is re-raised
    by the first [except] clause, any other exception by the second, both as
    [RuntimeError], and nothing is published then. *)
Definition _set_order (timestamp trade_id leg_id : Z) (action : Action)
    (contract : Contract) (order : BaseOrder) : M unit := fun w =>
  match new_order_event timestamp trade_id leg_id action contract order with
  | Ok order_event => publish ORDER (OrderPayload order_event) w
  | Raise (ValueError msg) =>
      (Raise (RuntimeError "Failed to set OrderEvent due to input : "
                           (ValueError msg)), w)
  | Raise (TypeError msg) =>
      (Raise (RuntimeError "Failed to set OrderEvent due to input : "
                           (TypeError msg)), w)
  | Raise e =>
      (Raise (RuntimeError "Unexpected error setting OrderEvent: " e), w)
  end.

(** The first loop of [_handle_signal], [for trade in trade_instructions],
    with the two accumulators [orders] and [total_capital_required]. *)
Fixpoint cost_trades (timestamp : Z) (trade_instructions : list SignalInstruction)
    (orders : list OrderDetails) (total_capital_required : number)
    : M (list OrderDetails * number) :=
  match trade_instructions with
  | [] => ret (orders, total_capital_required)
  | trade :: rest =>
      symbol <- symbols_map_getitem (instrument trade);;
      let order := to_order trade in
      current_price <- retrieve (instrument_id symbol);;
      order_cost <- symbol_cost symbol (quantity order) current_price;;
      let order_details :=
        {| od_timestamp := timestamp; od_trade_id := trade_id trade;
           od_leg_id := leg_id trade; od_action := action trade;
           od_contract := contract symbol; od_order := order |} in
      let orders := orders ++ [order_details] in
      let total_capital_required :=
        if negb (is_exit (action trade))
        then py_add total_capital_required order_cost
        else total_capital_required in
      cost_trades timestamp rest orders total_capital_required
  end.

(** The second loop of [_handle_signal], [for order in orders]. *)
Fixpoint set_orders (orders : list OrderDetails) : M unit :=
  match orders with
  | [] => ret tt
  | order :: rest =>
      _set_order (od_timestamp order) (od_trade_id order) (od_leg_id order)
                 (od_action order) (od_contract order) (od_order order);;;
      set_orders rest
  end.

(** [OrderExecutionManager._handle_signal] *)
Definition _handle_signal (timestamp : Z)
    (trade_instructions : list SignalInstruction) : M unit :=
  costing <- cost_trades timestamp trade_instructions [] py_zero;;
  let '(orders, total_capital_required) := costing in
  available <- gets (fun w => capital (portfolio_server w));;
  if py_le total_capital_required available
  then set_orders orders
  else publish UPDATE_SYSTEM (BoolPayload false).

(** [OrderExecutionManager.handle_event] *)
Definition handle_event (event : SignalEvent) : M unit :=
  let trade_instructions := instructions event in
  let timestamp := timestamp event in
  active_orders_tickers <- gets (fun w => get_active_order_tickers (portfolio_server w));;
  if existsb (fun trade => bool_decide (instrument trade ∈ active_orders_tickers))
             trade_instructions
  then publish UPDATE_SYSTEM (BoolPayload false)
  else _handle_signal timestamp trade_instructions.

(** *** Vocabulary of the specification *)

(** The capital one leg requires: the [order_cost] of its loop iteration,
    defined when the symbol and its price are both found. *)
Definition leg_cost (sm : gmap Z Symbol) (ob : gmap Z number)
    (trade : SignalInstruction) : option number :=
  match sm !! instrument trade with
  | None => None
  | Some symbol =>
      match ob !! instrument_id symbol with
      | None => None
      | Some price => Some (cost symbol (quantity (to_order trade)) price)
      end
  end.

(** The ORDER event that belongs to one leg. *)
Definition order_event_of (sm : gmap Z Symbol) (timestamp : Z)
    (trade : SignalInstruction) : option OrderEvent :=
  match sm !! instrument trade with
  | None => None
  | Some symbol =>
      Some {| oe_timestamp := timestamp; oe_trade_id := trade_id trade;
              oe_leg_id := leg_id trade; oe_action := action trade;
              oe_contract := contract symbol; oe_order := to_order trade |}
  end.

(** The [order_details] that the costing loop builds for one leg. *)
Definition order_details_of (sm : gmap Z Symbol) (timestamp : Z)
    (trade : SignalInstruction) : option OrderDetails :=
  match sm !! instrument trade with
  | None => None
  | Some symbol =>
      Some {| od_timestamp := timestamp; od_trade_id := trade_id trade;
              od_leg_id := leg_id trade; od_action := action trade;
              od_contract := contract symbol; od_order := to_order trade |}
  end.

(** totalCapitalRequired in the words of the specification: the sum, from
    [0] and in signal order, of the cost of the legs whose action is neither
    SELL nor COVER.  [legs] pairs each instruction with its cost. *)
Definition spec_total_capital_required
    (legs : list (SignalInstruction * number)) : number :=
  fold_left py_add
    (filter (fun leg => action leg.1 <> SELL /\ action leg.1 <> COVER) legs).*2
    py_zero.

(** The [OrderEvent] that [_set_order] builds from one [order_details]. *)
Definition event_of_details (od : OrderDetails) : OrderEvent :=
  {| oe_timestamp := od_timestamp od; oe_trade_id := od_trade_id od;
     oe_leg_id := od_leg_id od; oe_action := od_action od;
     oe_contract := od_contract od; oe_order := od_order od |}.

(** The instruments of the signal touch no active order. *)
Definition no_conflict (w : World) (event : SignalEvent) : Prop :=
  Forall (fun trade => instrument trade ∉ get_active_order_tickers (portfolio_server w))
         (instructions event).

(** Some instrument of the signal has an active order. *)
Definition conflict (w : World) (event : SignalEvent) : Prop :=
  Exists (fun trade => instrument trade ∈ get_active_order_tickers (portfolio_server w))
         (instructions event).

(** Every leg of the signal can be priced, with these costs. *)
Definition priced (w : World) (trades : list SignalInstruction)
    (costs : list number) : Prop :=
  Forall2 (fun trade c => leg_cost (symbols_map w) (order_book w) trade = Some c)
          trades costs.

Definition order_message (o : OrderEvent) : EventType * Payload :=
  (ORDER, OrderPayload o).

Definition rejection : EventType * Payload :=
  (UPDATE_SYSTEM, BoolPayload false).

(** *** The worker thread of [OrderExecutionManager.process] *)

(** Where the thread stands.  [InGet] is inside [self.signal_queue.get()];
    [Crashed e] is a thread ended by the exception [e] leaving [process]. *)
Inductive Pc : Type :=
  | AtStart
  | LoopHead
  | InGet
  | Finished
  | Crashed (e : Exn).

Record Adapter : Type := {
  pc : Pc;
  running : bool;                    (* [self.running] *)
  shutdown_event : bool;             (* [self.shutdown_event] *)
  signal_queue : list SignalEvent;   (* oldest first *)
  cleanups : nat;                    (* calls of [self.cleanup()] so far *)
  world : World;
}.

(** One move of the thread, [None] when it cannot move.  [get()] is called
    with its defaults, [block=True, timeout=None]: on an empty queue it waits
    until an item is put and never raises [queue.Empty], so the
    [except queue.Empty] clause has nothing to catch.  Any exception of
    [handle_event] is of another class and leaves [process], skipping the
    [self.cleanup()] that follows the loop. *)
Definition step (a : Adapter) : option Adapter :=
  match pc a with
  | AtStart =>
      Some {| pc := LoopHead; running := true;
              shutdown_event := shutdown_event a;
              signal_queue := signal_queue a;
              cleanups := cleanups a; world := world a |}
  | LoopHead =>
      if shutdown_event a
      then Some {| pc := Finished; running := running a;
                   shutdown_event := shutdown_event a;
                   signal_queue := signal_queue a;
                   cleanups := S (cleanups a); world := world a |}
      else Some {| pc := InGet; running := running a;
                   shutdown_event := shutdown_event a;
                   signal_queue := signal_queue a;
                   cleanups := cleanups a; world := world a |}
  | InGet =>
      match signal_queue a with
      | [] => None
      | event :: rest =>
          let '(r, w) := handle_event event (world a) in
          Some {| pc := match r with Ok _ => LoopHead | Raise e => Crashed e end;
                  running := running a;
                  shutdown_event := shutdown_event a;
                  signal_queue := rest;
                  cleanups := cleanups a; world := w |}
      end
  | Finished => None
  | Crashed _ => None
  end.

(** What the rest of the system does to the adapter, and the passing of one
    polling interval. *)
Inductive Label : Type :=
  | ThreadStep                       (* the thread is scheduled *)
  | Put (event : SignalEvent)        (* the bus puts an event on the queue *)
  | SetShutdown                      (* [shutdown_event.set()] *)
  | Tick.                            (* one polling interval elapses *)

(** Scheduling a thread that cannot move leaves everything as it is. *)
Definition transition (a : Adapter) (l : Label) : Adapter :=
  match l with
  | ThreadStep => default a (step a)
  | Put event =>
      {| pc := pc a; running := running a;
         shutdown_event := shutdown_event a;
         signal_queue := signal_queue a ++ [event];
         cleanups := cleanups a; world := world a |}
  | SetShutdown =>
      {| pc := pc a; running := running a;
         shutdown_event := true;
         signal_queue := signal_queue a;
         cleanups := cleanups a; world := world a |}
  | Tick => a
  end.

Definition run (schedule : list Label) (a : Adapter) : Adapter :=
  fold_left transition schedule a.

Definition is_put (l : Label) : bool :=
  match l with Put _ => true | _ => false end.

(** The adapter as [__init__] leaves it. *)
Definition new_adapter (w : World) : Adapter :=
  {| pc := AtStart; running := false; shutdown_event := false;
     signal_queue := []; cleanups := 0%nat; world := w |}.

Definition exited (a : Adapter) : bool :=
  match pc a with Finished | Crashed _ => true | _ => false end.

(** *** Vocabulary for runs of the worker thread *)

(** The events a schedule puts on the queue, in order. *)
Definition puts (schedule : list Label) : list SignalEvent :=
  omap (fun l => match l with Put event => Some event | _ => None end) schedule.

(** The world after [handle_event] was called on each event in turn, whether
    the calls returned or raised. *)
Definition handle_all (events : list SignalEvent) (w : World) : World :=
  fold_left (fun w event => (handle_event event w).2) events w.

(** The same world with another available capital. *)
Definition with_capital (w : World) (available : number) : World :=
  {| symbols_map := symbols_map w; order_book := order_book w;
     portfolio_server :=
       {| capital := available;
          positions := positions (portfolio_server w);
          active_orders := active_orders (portfolio_server w) |};
     bus := bus w; costed := costed w |}.

(** *** The emitting loop, with its outcome as a value *)

(** How [_set_order] ends: the event is published, or a [RuntimeError] is
    raised whose message starts with [prefix] and quotes the exception
    [cause] of the constructor. *)
Inductive Emission : Type :=
  | Emitted
  | RuntimeErrorRaised (prefix : string) (cause : Exn).

(** [OrderExecutionManager._set_order] once more, its [try] and both [except]
    clauses, with the way it ends returned as a value. *)
Definition _set_order_guarded (timestamp trade_id leg_id : Z) (action : Action)
    (contract : Contract) (order : BaseOrder) (w : World) : Emission * World :=
  match new_order_event timestamp trade_id leg_id action contract order with
  | Ok order_event => (Emitted, (publish ORDER (OrderPayload order_event) w).2)
  | Raise (ValueError msg) =>
      (RuntimeErrorRaised "Failed to set OrderEvent due to input : "
                          (ValueError msg), w)
  | Raise (TypeError msg) =>
      (RuntimeErrorRaised "Failed to set OrderEvent due to input : "
                          (TypeError msg), w)
  | Raise e =>
      (RuntimeErrorRaised "Unexpected error setting OrderEvent: " e, w)
  end.

(** The second loop of [_handle_signal] over it: the first [RuntimeError]
    leaves the loop. *)
Fixpoint set_orders_guarded (orders : list OrderDetails) (w : World)
    : Emission * World :=
  match orders with
  | [] => (Emitted, w)
  | order :: rest =>
      match _set_order_guarded (od_timestamp order) (od_trade_id order)
              (od_leg_id order) (od_action order) (od_contract order)
              (od_order order) w with
      | (Emitted, w') => set_orders_guarded rest w'
      | (RuntimeErrorRaised prefix cause, w') => (RuntimeErrorRaised prefix cause, w')
      end
  end.

(** What the constructor makes of one [order_details]. *)
Definition built (od : OrderDetails) : Result OrderEvent :=
  new_order_event (od_timestamp od) (od_trade_id od) (od_leg_id od)
                  (od_action od) (od_contract od) (od_order od).

End Engine.

Arguments instrument_id {_} _.
Arguments contract {_} _.
Arguments symbols_map {_ _ _} _.
Arguments order_book {_ _ _} _.
Arguments portfolio_server {_ _ _} _.
Arguments bus {_ _ _} _.
Arguments costed {_ _ _} _.
Arguments with_costed {_ _ _} _ _.
Arguments with_bus {_ _ _} _ _.
Arguments event_of_details {_ _} _.
Arguments od_timestamp {_ _} _.
Arguments od_trade_id {_ _} _.
Arguments od_leg_id {_ _} _.
Arguments od_action {_ _} _.
Arguments od_contract {_ _} _.
Arguments od_order {_ _} _.
Arguments no_conflict {_ _ _} _ _.
Arguments conflict {_ _ _} _ _.
Arguments BoolPayload {_ _} _.
Arguments OrderPayload {_ _} _.
Arguments order_message {_ _} _.
Arguments rejection {_ _}.
Arguments pc {_ _ _} _.
Arguments running {_ _ _} _.
Arguments shutdown_event {_ _ _} _.
Arguments signal_queue {_ _ _} _.
Arguments cleanups {_ _ _} _.
Arguments world {_ _ _} _.
Arguments exited {_ _ _} _.
Arguments new_adapter {_ _ _} _.
Arguments is_put {_} _.
Arguments is_exit _ : simpl never.

(** A concrete instance for test runs: amounts are rationals, a contract is
    its ticker, an order is its quantity (the weight of the leg) and the
    cost of a leg is quantity x price. *)
Definition demo_quantity (order : Q) : Q := order.
Definition demo_to_order (trade : SignalInstruction) : Q := weight trade.
Definition demo_cost (symbol : Symbol string) (qty price : Q) : Q :=
  (qty * price)%Q.

Definition demo_symbols : gmap Z (Symbol string) :=
  {[ 1 := {| instrument_id := 1; contract := "A" |};
     2 := {| instrument_id := 2; contract := "B" |} ]}.

(** A at 100, B at 80. *)
Definition demo_book : gmap Z Q := {[ 1 := 100%Q; 2 := 80%Q ]}.

Definition demo_active_order : Portfolio.ActiveOrder (H := Q_PyNum) :=
  {| Portfolio.permId := 11; Portfolio.clientId := 0; Portfolio.orderId := 5;
     Portfolio.parentId := 0; Portfolio.account := "DU1";
     Portfolio.symbol := "A"; Portfolio.secType := "FUT";
     Portfolio.exchange := "CME"; Portfolio.ao_action := "BUY";
     Portfolio.orderType := "MKT"; Portfolio.totalQty := 10%Q;
     Portfolio.cashQty := 0%Q; Portfolio.lmtPrice := 0%Q;
     Portfolio.auxPrice := 0%Q; Portfolio.status := "Submitted";
     Portfolio.filled := "0"; Portfolio.remaining := 10%Q;
     Portfolio.avgFillPrice := 0%Q; Portfolio.lastFillPrice := 0%Q;
     Portfolio.whyHeld := EmptyString; Portfolio.mktCapPrice := 0%Q |}.

Definition demo_world (available : Q)
    (active : gmap Z Portfolio.ActiveOrder) : World string Q :=
  {| symbols_map := demo_symbols;
     order_book := demo_book;
     portfolio_server :=
       {| capital := available; positions := ∅; active_orders := active |};
     bus := [];
     costed := [] |}.

(** BUY 10 A (cost 1000), SELL 10 B (cost 800), COVER 10 A (cost 1000), and
    a BUY on instrument 7, which the symbol map does not know. *)
Definition buy_a : SignalInstruction :=
  {| instrument := 1; action := BUY; trade_id := 1; leg_id := 1; weight := 10%Q |}.
Definition sell_b : SignalInstruction :=
  {| instrument := 2; action := SELL; trade_id := 1; leg_id := 2; weight := 10%Q |}.
Definition cover_a : SignalInstruction :=
  {| instrument := 1; action := COVER; trade_id := 2; leg_id := 1; weight := 10%Q |}.
Definition buy_unknown : SignalInstruction :=
  {| instrument := 7; action := BUY; trade_id := 3; leg_id := 1; weight := 1%Q |}.

Definition signal_of (legs : list SignalInstruction) : SignalEvent :=
  {| timestamp := 1712850060000000000; instructions := legs |}.

(** A constructor that refuses identifiers that are not positive, and the
    [order_details] of three legs, the second with [trade_id = 0]. *)
Definition demo_new_order_event (timestamp trade_id leg_id : Z) (action : Action)
    (contract : string) (order : Q) : Result (OrderEvent string Q) :=
  if (trade_id <=? 0) || (leg_id <=? 0)
  then Raise (ValueError "'trade_id' and 'leg_id' must be greater than zero.")
  else Ok {| oe_timestamp := timestamp; oe_trade_id := trade_id;
             oe_leg_id := leg_id; oe_action := action;
             oe_contract := contract; oe_order := order |}.

Definition demo_details (trade_id leg_id : Z) (contract : string)
    : OrderDetails string Q :=
  {| od_timestamp := 1712850060000000000; od_trade_id := trade_id;
     od_leg_id := leg_id; od_action := BUY; od_contract := contract;
     od_order := 10%Q |}.

(** The same instruments with B never priced. *)
Definition book_without_b : gmap Z Q := {[ 1 := 100%Q ]}.

Definition world_without_b (available : Q) : World string Q :=
  {| symbols_map := demo_symbols;
     order_book := book_without_b;
     portfolio_server :=
       {| capital := available; positions := ∅; active_orders := ∅ |};
     bus := [];
     costed := [] |}.

(** Legs whose [trade_id] is 0: BUY 10 B (cost 800) and SELL 10 B; and a
    third leg, BUY 5 A (cost 500). *)
Definition buy_b_unnumbered : SignalInstruction :=
  {| instrument := 2; action := BUY; trade_id := 0; leg_id := 2; weight := 10%Q |}.
Definition sell_b_unnumbered : SignalInstruction :=
  {| instrument := 2; action := SELL; trade_id := 0; leg_id := 2; weight := 10%Q |}.
Definition buy_more_a : SignalInstruction :=
  {| instrument := 1; action := BUY; trade_id := 1; leg_id := 3; weight := 5%Q |}.

Abbreviation demo_handle_event :=
  (handle_event (H := Q_PyNum) string Q demo_quantity demo_to_order demo_cost
                demo_new_order_event).
Abbreviation demo_run :=
  (run (H := Q_PyNum) string Q demo_quantity demo_to_order demo_cost
       demo_new_order_event).

End OrderManager.

(** ** midas/core/performance/base.py *)

Module PerformanceManager.

Record State : Type := {
  saves : nat;       (* calls of [self.save()] so far *)
  cleanups : nat;    (* calls of [self.cleanup()] so far *)
}.

(** [PerformanceManager.cleanup] *)
Definition cleanup (s : State) : State :=
  {| saves := S (saves s); cleanups := S (cleanups s) |}.

(** [PerformanceManager.process]: [try: <body> finally: self.cleanup()].
    The body starts the four queue loops on threads of their own and joins
    them; [body] is whatever it does to the state and however it ends. *)
Definition process (body : State -> Result unit * State) (s : State)
    : Result unit * State :=
  let '(r, s') := body s in (r, cleanup s').

End PerformanceManager.

(** ** midastrader/core/engine.py *)

Module CoreEngine.

(** The values held by the attributes of a [CoreEngine]. *)
Inductive PyVal : Type :=
  | VNone
  | VOpaque (repr : string)             (* a collaborator, not inspected *)
  | VEvent (is_set : bool)              (* [threading.Event] *)
  | VDict (keys : list string)          (* [self.adapters], by key *)
  | VThreads (terminated : list bool).  (* [self.threads] *)

(** How a call ends: it returns, raises, or waits for ever. *)
Inductive Outcome : Type :=
  | Returned
  | Raised (e : Exn)
  | Blocked.

(** The instance dictionary, attribute name -> value. *)
Abbreviation Object := (gmap string PyVal).

(** [self.<name>] as an expression *)
Definition getattr (self : Object) (name : string) : Result PyVal :=
  match self !! name with
  | Some v => Ok v
  | None => Raise (AttributeError name)
  end.

(** [CoreEngine.__init__] *)
Definition __init__ (symbols_map message_bus mode params output_dir : PyVal)
    : Object :=
  let self : Object := ∅ in
  let self := <["logger" := VOpaque "SystemLogger"]> self in
  let self := <["mode" := mode]> self in
  let self := <["params" := params]> self in
  let self := <["message_bus" := message_bus]> self in
  let self := <["symbols_map" := symbols_map]> self in
  let self := <["output_dir" := output_dir]> self in
  let self := <["adapters" := VDict []]> self in
  let self := <["porfolio_manager" := VNone]> self in
  let self := <["orderbook_manager" := VNone]> self in
  let self := <["performance_manager" := VNone]> self in
  let self := <["order_manager" := VNone]> self in
  let self := <["threads" := VThreads []]> self in
  let self := <["running" := VEvent false]> self in
  self.

(** [self.adapters[key] = ...] *)
Definition adapters_setitem (key : string) (self : Object) : Object :=
  match self !! "adapters" with
  | Some (VDict keys) =>
      <["adapters" := VDict (if bool_decide (key ∈ keys) then keys else keys ++ [key])]> self
  | _ => self
  end.

(** [CoreEngine.initialize] *)
Definition initialize (self : Object) : Object :=
  adapters_setitem "performance_manager"
    (adapters_setitem "order_manager"
      (adapters_setitem "portfolio_server"
        (adapters_setitem "order_book" self))).

(** [CoreEngine.set_strategy] *)
Definition set_strategy (self : Object) : Object :=
  adapters_setitem "strategy" self.

(** [CoreEngine.start]: one thread per adapter, appended to [self.threads]
    and started; then the monitor thread is started and [self.running] set. *)
Definition start (self : Object) : Object :=
  match self !! "adapters", self !! "threads" with
  | Some (VDict keys), Some (VThreads ts) =>
      <["running" := VEvent true]>
        (<["threads" := VThreads (ts ++ map (fun _ => false) keys)]> self)
  | _, _ => self
  end.

(** Every adapter thread runs to its end. *)
Definition adapter_threads_terminate (self : Object) : Object :=
  match self !! "threads" with
  | Some (VThreads ts) => <["threads" := VThreads (map (fun _ => true) ts)]> self
  | _ => self
  end.

(** [CoreEngine._monitor_threads], the body of the monitor thread. *)
Definition _monitor_threads (self : Object) : Outcome * Object :=
  match getattr self "threads" with
  | Raise e => (Raised e, self)
  | Ok (VThreads ts) =>
      if forallb id ts then                       (* every [join] returns *)
        match getattr self "logger" with
        | Raise e => (Raised e, self)
        | Ok _ =>
            match getattr self "completed" with
            | Raise e => (Raised e, self)
            | Ok (VEvent _) => (Returned, <["completed" := VEvent true]> self)
            | Ok _ => (Raised (AttributeError "set"), self)
            end
        end
      else (Blocked, self)
  | Ok _ => (Raised (TypeError "threads is not iterable"), self)
  end.

(** [CoreEngine.wait_until_complete] *)
Definition wait_until_complete (self : Object) : Outcome :=
  match getattr self "completed" with
  | Raise e => Raised e
  | Ok (VEvent true) => Returned
  | Ok (VEvent false) => Blocked
  | Ok _ => Raised (AttributeError "wait")
  end.

(** The engines a program can hold: built by [__init__] and driven through
    the methods of the class, in any order, while adapter threads end. *)
Inductive reachable : Object -> Prop :=
  | reach_init symbols_map message_bus mode params output_dir :
      reachable (__init__ symbols_map message_bus mode params output_dir)
  | reach_initialize self :
      reachable self -> reachable (initialize self)
  | reach_set_strategy self :
      reachable self -> reachable (set_strategy self)
  | reach_start self :
      reachable self -> reachable (start self)
  | reach_threads_terminate self :
      reachable self -> reachable (adapter_threads_terminate self)
  | reach_monitor self :
      reachable self -> reachable (_monitor_threads self).2.

(** A backtest run up to the point where every adapter thread has ended. *)
Definition demo_engine : Object :=
  adapter_threads_terminate
    (start
      (set_strategy
        (initialize
          (__init__ (VOpaque "symbols_map") (VOpaque "message_bus")
                    (VOpaque "BACKTEST") (VOpaque "params")
                    (VOpaque "output/"))))).

(** What [stop] does to the adapters, in the order it does it. *)
Inductive Effect : Type :=
  | Save (adapter : string)               (* [adapter.save()] returned *)
  | ShutdownRequested (adapter : string). (* [adapter.shutdown_event.set()] *)

(** How [stop] ends: it returns, [self.adapters[key]] finds no [key], or
    another exception leaves it. *)
Inductive StopOutcome : Type :=
  | Stopped
  | MissingAdapter (key : string)
  | StopRaised (e : Exn).

(** [CoreEngine.stop].  [save] is how the call of [PerformanceManager.save]
    ends; each [self.adapters[key]] raises [KeyError] on a key that is not
    in the dict, and what was done before stays done. *)
Definition stop (save : Result unit) (self : Object) : StopOutcome * list Effect :=
  match getattr self "adapters" with
  | Raise e => (StopRaised e, [])
  | Ok (VDict keys) =>
      if negb (bool_decide ("performance_manager" ∈ keys))
      then (MissingAdapter "performance_manager", [])
      else
        match save with
        | Raise e => (StopRaised e, [])
        | Ok _ =>
            let done := [Save "performance_manager"] in
            if negb (bool_decide ("order_book" ∈ keys))
            then (MissingAdapter "order_book", done)
            else
              let done := done ++ [ShutdownRequested "order_book"] in
              if negb (bool_decide ("order_manager" ∈ keys))
              then (MissingAdapter "order_manager", done)
              else
                let done := done ++ [ShutdownRequested "order_manager"] in
                if negb (bool_decide ("portfolio_server" ∈ keys))
                then (MissingAdapter "portfolio_server", done)
                else
                  let done := done ++ [ShutdownRequested "portfolio_server"] in
                  let done := done ++ [ShutdownRequested "performance_manager"] in
                  if negb (bool_decide ("strategy" ∈ keys))
                  then (MissingAdapter "strategy", done)
                  else (Stopped, done ++ [ShutdownRequested "strategy"])
        end
  | Ok _ => (StopRaised (TypeError "adapters is not subscriptable"), [])
  end.

(** The adapters that [initialize] and [set_strategy] register. *)
Definition adapter_names : list string :=
  ["order_book"; "portfolio_server"; "order_manager"; "performance_manager";
   "strategy"].

End CoreEngine.

(** ** Python values

    The values that reach the validation code and the statistics
    dictionaries.  A float is one of its three special values or a finite
    number, which is a rational; the code only classifies floats and compares
    them with [0], and both are exact. *)

Module Py.

Inductive pyfloat : Type :=
  | Finite (q : Q)
  | PosInf
  | NegInf
  | NaN.

#[local] Unset Elimination Schemes.
Inductive pyval : Type :=
  | PNone
  | PBool (b : bool)
  | PInt (z : Z)
  | PFloat (f : pyfloat)
  | PStr (s : string)
  | PList (l : list pyval)
  | PDict (items : list (string * pyval)).   (* in insertion order *)
#[local] Set Elimination Schemes.

(** [math.isnan], [math.isinf] *)
Definition isnan (f : pyfloat) : bool :=
  match f with NaN => true | _ => false end.
Definition isinf (f : pyfloat) : bool :=
  match f with PosInf | NegInf => true | _ => false end.

(** [isinstance(v, str)], [isinstance(v, int)], [isinstance(v, (int, float))];
    [bool] is a subclass of [int]. *)
Definition is_str (v : pyval) : bool :=
  match v with PStr _ => true | _ => false end.
Definition is_int (v : pyval) : bool :=
  match v with PInt _ | PBool _ => true | _ => false end.
Definition is_number (v : pyval) : bool :=
  match v with PInt _ | PBool _ | PFloat _ => true | _ => false end.

(** [v <= 0] and [v < 0] for a number [v]; every comparison with NaN is
    false.  The code reaches them on numbers only. *)
Definition le_zero (v : pyval) : bool :=
  match v with
  | PBool b => negb b
  | PInt z => (z <=? 0)%Z
  | PFloat (Finite q) => Qle_bool q 0
  | PFloat NegInf => true
  | _ => false
  end.
Definition lt_zero (v : pyval) : bool :=
  match v with
  | PInt z => (z <? 0)%Z
  | PFloat (Finite q) => Qlt_bool q 0
  | PFloat NegInf => true
  | _ => false
  end.

(** [v in names] for a list of string literals. *)
Definition str_in (v : pyval) (names : list string) : bool :=
  match v with
  | PStr s => bool_decide (s ∈ names)
  | _ => false
  end.

End Py.

(** ** midas/core/performance/base.py, the helpers *)

Module PerformanceUtils.
Import Py.

(** One value of the dictionary as [replace_nan_inf_in_dict] leaves it: a
    nested dict is processed in turn, a NaN or infinite float becomes [0.0],
    anything else (a list too, whatever it holds) is left alone. *)
Fixpoint replace_value (value : pyval) : pyval :=
  match value with
  | PDict d =>
      PDict (map (fun item => match item with
                              | (key, value) => (key, replace_value value)
                              end) d)
  | PFloat f =>
      if isnan f || isinf f then PFloat (Finite 0) else value
  | _ => value
  end.

(** [replace_nan_inf_in_dict(d)]: the contents of [d] when the call returns. *)
Definition replace_nan_inf_in_dict (d : list (string * pyval))
    : list (string * pyval) :=
  map (fun item => (item.1, replace_value item.2)) d.

(** No NaN and no infinity is a value of the dict or of a dict reached from
    it through dict values.  Lists are not looked into, as
    [replace_nan_inf_in_dict] does not look into them. *)
Fixpoint finite_value (value : pyval) : bool :=
  match value with
  | PDict d => forallb (fun item => match item with
                                    | (_, value) => finite_value value
                                    end) d
  | PFloat f => negb (isnan f || isinf f)
  | _ => true
  end.

Definition finite_dict (d : list (string * pyval)) : bool :=
  forallb (fun item => finite_value item.2) d.

(** [datetime.today()] as far as [generate_backtest_name] reads it. *)
Record datetime : Type := {
  year : N;
  month : N;
  day : N;
  hour : N;
  minute : N;
  second : N;
}.

(** [PerformanceManager.generate_backtest_name], with [c] the current time
    and [strategy_name] the name in the parameters; [pretty] is [str] on
    natural numbers. *)
Definition generate_backtest_name (strategy_name : string) (c : datetime) : string :=
  strategy_name +:+ "-" +:+ pretty (year c) +:+ pretty (month c)
    +:+ pretty (day c) +:+ pretty (hour c) +:+ pretty (minute c)
    +:+ pretty (second c).

End PerformanceUtils.

(** ** midastrader/structs/trade.py *)

Module Trade.
Import Py.

(** The arguments of [Trade(...)], before any check. *)
Record Trade : Type := {
  timestamp : pyval;
  trade_id : pyval;
  leg_id : pyval;
  instrument : pyval;
  quantity : pyval;
  avg_price : pyval;
  trade_value : pyval;
  trade_cost : pyval;
  action : pyval;
  fees : pyval;
}.

(** [Trade.__post_init__] *)
Definition __post_init__ (self : Trade) : Result unit :=
  if negb (is_int (timestamp self)) then
    Raise (TypeError "'timestamp' field must be of type int.")
  else if negb (is_int (trade_id self)) then
    Raise (TypeError "'trade_id' field must be of type int.")
  else if negb (is_int (leg_id self)) then
    Raise (TypeError "'leg_id' field must be of type int.")
  else if negb (is_int (instrument self)) then
    Raise (TypeError "'instrument' field must be of type int.")
  else if negb (is_number (quantity self)) then
    Raise (TypeError "'quantity' field must be of type float or int.")
  else if negb (is_number (avg_price self)) then
    Raise (TypeError "'avg_price' field must be of type float or int.")
  else if negb (is_number (trade_value self)) then
    Raise (TypeError "'trade_value' field must be of type float or int.")
  else if negb (is_number (trade_cost self)) then
    Raise (TypeError "'trade_cost' field must be of type float or int.")
  else if negb (is_str (action self)) then
    Raise (TypeError "'action' field must be of type str.")
  else if negb (is_number (fees self)) then
    Raise (TypeError "'fees' field must be of type float or int.")
  else if negb (str_in (action self) ["BUY"; "SELL"; "LONG"; "SHORT"; "COVER"]) then
    Raise (ValueError
             "'action' field must be in ['BUY', 'SELL', 'LONG', 'SHORT', 'COVER'].")
  else if le_zero (avg_price self) then
    Raise (ValueError "'avg_price' field must be greater than zero.")
  else Ok tt.

(** Every field has the type its check asks for. *)
Definition well_typed (self : Trade) : bool :=
  is_int (timestamp self) && is_int (trade_id self) && is_int (leg_id self)
  && is_int (instrument self) && is_number (quantity self)
  && is_number (avg_price self) && is_number (trade_value self)
  && is_number (trade_cost self) && is_str (action self)
  && is_number (fees self).

Definition is_type_error (r : Result unit) : bool :=
  match r with Raise (TypeError _) => true | _ => false end.
Definition is_value_error (r : Result unit) : bool :=
  match r with Raise (ValueError _) => true | _ => false end.

(** The trade of the unit tests, bought. *)
Definition test_trade : Trade :=
  {| timestamp := PInt 16555000000000000; trade_id := PInt 1; leg_id := PInt 2;
     instrument := PInt 1; quantity := PInt 10;
     avg_price := PFloat (Finite 85.98%Q); trade_value := PFloat (Finite 900.90%Q);
     trade_cost := PInt 400; action := PStr "BUY";
     fees := PFloat (Finite 9.87%Q) |}.

End Trade.

(** ** shared/portfolio.py, the constructor *)

Module PositionInit.
Import Py.

(** The arguments of [Position(...)], before any check. *)
Record Position : Type := {
  action : pyval;
  avg_cost : pyval;
  quantity : pyval;
  total_cost : pyval;
  market_value : pyval;
  quantity_multiplier : pyval;
  price_multiplier : pyval;
  initial_margin : pyval;
}.

(** [Position(action, avg_cost, quantity, total_cost, market_value)]: the
    three fields with a default get [None]. *)
Definition with_defaults (action avg_cost quantity total_cost market_value : pyval)
    : Position :=
  {| action := action; avg_cost := avg_cost; quantity := quantity;
     total_cost := total_cost; market_value := market_value;
     quantity_multiplier := PNone; price_multiplier := PNone;
     initial_margin := PNone |}.

(** [Position.__post_init__], type checks included. *)
Definition __post_init__ (self : Position) : Result unit :=
  if negb (is_str (action self)) then
    Raise (TypeError "action must be of type str")
  else if negb (is_number (avg_cost self)) then
    Raise (TypeError "avg_cost must be of type int or float")
  else if negb (is_number (quantity self)) then
    Raise (TypeError "quantity must be of type int or float")
  else if negb (is_number (price_multiplier self)) then
    Raise (TypeError "multiplier must be of type float or int")
  else if negb (is_int (quantity_multiplier self)) then
    Raise (TypeError "multiplier must be of type int")
  else if negb (is_number (initial_margin self)) then
    Raise (TypeError "initial_margin must be of type int or float")
  else if negb (is_number (total_cost self)) then
    Raise (TypeError "total_cost must be of type int or float")
  else if negb (is_number (market_value self)) then
    Raise (TypeError "market_value must be of type int or float")
  else if negb (str_in (action self) ["BUY"; "SELL"]) then
    Raise (ValueError "action must be either 'BUY' or 'SELL'")
  else if le_zero (price_multiplier self) then
    Raise (ValueError "multiplier must be greater than zero")
  else if le_zero (quantity_multiplier self) then
    Raise (ValueError "multiplier must be greater than zero")
  else if lt_zero (initial_margin self) then
    Raise (ValueError "initial_margin must be non-negative.")
  else Ok tt.

Definition well_typed (self : Position) : bool :=
  is_str (action self) && is_number (avg_cost self) && is_number (quantity self)
  && is_number (price_multiplier self) && is_int (quantity_multiplier self)
  && is_number (initial_margin self) && is_number (total_cost self)
  && is_number (market_value self).

(** A long position of ten futures contracts. *)
Definition long_futures : Position :=
  {| action := PStr "BUY"; avg_cost := PFloat (Finite 50); quantity := PInt 10;
     total_cost := PFloat (Finite 500); market_value := PFloat (Finite 520);
     quantity_multiplier := PInt 40000; price_multiplier := PFloat (Finite 0.01%Q);
     initial_margin := PInt 4564 |}.

End PositionInit.

(** ** midas/main_engine.py *)

Module MainEngine.
Import Py.

(** [midas.config.Mode] *)
Inductive Mode : Type := LIVE | BACKTEST.

(** An [Engine]: its mode and the rest of its instance dictionary. *)
Record Engine : Type := {
  mode : Mode;
  attrs : gmap string pyval;
}.

(** How a call ends. *)
Inductive Outcome : Type :=
  | Returned
  | Raised (e : Exn).

(** [self.<name>] as an expression *)
Definition getattr (self : Engine) (name : string) : Result pyval :=
  match attrs self !! name with
  | Some v => Ok v
  | None => Raise (AttributeError name)
  end.

(** [self.<name> = value] *)
Definition setattr (self : Engine) (name : string) (value : pyval) : Engine :=
  {| mode := mode self; attrs := <[name := value]> (attrs self) |}.

(** [Engine.__init__]; the collaborators are opaque. *)
Definition __init__ (mode : Mode)
    (config symbols_map params core_engine data_engine execution_engine : pyval)
    : Engine :=
  let self := {| mode := mode; attrs := ∅ |} in
  let self := setattr self "config" config in
  let self := setattr self "symbols_map" symbols_map in
  let self := setattr self "logger" (PStr "SystemLogger") in
  let self := setattr self "parameters" params in
  let self := setattr self "core_engine" core_engine in
  let self := setattr self "data_engine" data_engine in
  let self := setattr self "execution_engine" execution_engine in
  let self := setattr self "threads" (PDict []) in
  self.

(** [Engine._live_loop] up to its loop: [self.running = True]. *)
Definition _live_loop_enter (self : Engine) : Engine :=
  setattr self "running" (PBool true).

(** [Engine._signal_handler] *)
Definition _signal_handler (self : Engine) : Engine :=
  setattr self "running" (PBool false).

(** [Engine._live_loop] after its loop, which starts with
    [self.database_updater.delete_session()]. *)
Definition _live_loop_exit (self : Engine) : Outcome :=
  match getattr self "database_updater" with
  | Raise e => Raised e
  | Ok _ =>
      match getattr self "broker_client" with
      | Raise e => Raised e
      | Ok _ =>
          match getattr self "performance_manager" with
          | Raise e => Raised e
          | Ok _ => Returned
          end
      end
  end.

(** [Engine.stop] *)
Definition stop (self : Engine) : Outcome :=
  match getattr self "logger" with
  | Raise e => Raised e
  | Ok _ =>
      match mode self with
      | LIVE =>
          match getattr self "live_data_client" with
          | Raise e => Raised e
          | Ok _ => Returned
          end
      | BACKTEST => Returned
      end
  end.

(** The engines the class produces: built by [__init__], then driven through
    the methods that assign to [self]. *)
Inductive reachable : Engine -> Prop :=
  | reach_init mode config symbols_map params core_engine data_engine execution_engine :
      reachable (__init__ mode config symbols_map params core_engine data_engine
                          execution_engine)
  | reach_live_loop self :
      reachable self -> reachable (_live_loop_enter self)
  | reach_signal self :
      reachable self -> reachable (_signal_handler self).

(** A live engine after SIGINT. *)
Definition interrupted_live_engine : Engine :=
  _signal_handler
    (_live_loop_enter
       (__init__ LIVE (PStr "config") (PStr "symbols_map") (PStr "params")
                 (PStr "core_engine") (PStr "data_engine")
                 (PStr "execution_engine"))).

End MainEngine.

(** * Properties *)

(** ** Position equality *)

Module PortfolioFacts.
Import Portfolio.

Section WithNumbers.
Context `{PyNum}.

Lemma eq_true_iff (p q : Position) :
  __eq__ p (PositionObj q) = true <-> compared_fields_equal p q.
Proof.
  unfold __eq__, compared_fields_equal.
  rewrite !andb_true_iff, String.eqb_eq, Z.eqb_eq.
  tauto.
Qed.

Lemma eq_with_market_value (p q : Position) (v1 v2 : number) :
  __eq__ (with_market_value p v1) (PositionObj (with_market_value q v2))
  = __eq__ p (PositionObj q).
Proof. reflexivity. Qed.

(** C9, as the code has it: [p == q] holds exactly when action, average
    cost, quantity, price multiplier, quantity multiplier, initial margin
    and total cost are pairwise equal; the market value is not compared, so
    changing the market value of either side never changes the result; and
    a [Position] is unequal to anything that is not a [Position]. *)
Theorem position_eq_compares_all_but_market_value (p q : Position) :
  (__eq__ p (PositionObj q) = true <-> compared_fields_equal p q)
  /\ (forall v1 v2 : number,
        __eq__ (with_market_value p v1) (PositionObj (with_market_value q v2))
        = __eq__ p (PositionObj q))
  /\ __eq__ p NoneObj = false
  /\ (forall s, __eq__ p (StrObj s) = false).
Proof.
  split; [apply eq_true_iff|].
  split; [apply eq_with_market_value|].
  split; [reflexivity | intros s; reflexivity].
Qed.

End WithNumbers.

(** C9, as the specification states it, fails: the two valid positions
    [long_at_cost] and [long_marked_up] differ in market value (500 against
    520), so not all their fields are equal, and yet they compare equal. *)
Lemma position_eq_misses_market_value :
  post_init long_at_cost = Ok tt
  /\ post_init long_marked_up = Ok tt
  /\ ~ (__eq__ long_at_cost (PositionObj long_marked_up) = true
        <-> all_fields_equal long_at_cost long_marked_up).
Proof.
  split; [reflexivity|]. split; [reflexivity|].
  intros [Hall _].
  destruct (Hall eq_refl) as [_ Hmv].
  vm_compute in Hmv. discriminate Hmv.
Qed.

End PortfolioFacts.

(** ** The order execution manager *)

Module OrderManagerFacts.
Import OrderManager.

Section Engine.
Context `{PyNum}.
Variables Contract BaseOrder : Type.
Variable quantity : BaseOrder -> number.
Variable to_order : SignalInstruction -> BaseOrder.
Variable cost : Symbol Contract -> number -> number -> number.

Local Abbreviation World := (OrderManager.World Contract BaseOrder).
Local Abbreviation Adapter := (OrderManager.Adapter Contract BaseOrder).
Local Abbreviation OrderDetails := (OrderManager.OrderDetails Contract BaseOrder).
Local Abbreviation OrderEvent := (OrderManager.OrderEvent Contract BaseOrder).
Local Abbreviation cost_trades :=
  (OrderManager.cost_trades Contract BaseOrder quantity to_order cost).
Local Abbreviation leg_cost :=
  (OrderManager.leg_cost Contract BaseOrder quantity to_order cost).
Local Abbreviation priced :=
  (OrderManager.priced Contract BaseOrder quantity to_order cost).
Local Abbreviation order_event_of :=
  (OrderManager.order_event_of Contract BaseOrder to_order).
Local Abbreviation order_details_of :=
  (OrderManager.order_details_of Contract BaseOrder to_order).

Implicit Types (w : World) (trade : SignalInstruction)
  (trades : list SignalInstruction) (costs : list number)
  (event : SignalEvent).

(** *** Small facts *)

Lemma is_exit_false (a : Action) :
  is_exit a = false <-> a <> SELL /\ a <> COVER.
Proof.
  unfold is_exit. rewrite bool_decide_eq_false.
  rewrite !elem_of_cons, elem_of_nil. tauto.
Qed.

Lemma is_exit_true (a : Action) :
  is_exit a = true <-> a = SELL \/ a = COVER.
Proof.
  unfold is_exit. rewrite bool_decide_eq_true.
  rewrite !elem_of_cons, elem_of_nil. tauto.
Qed.

Lemma with_bus_id w : with_bus w (bus w) = w.
Proof. by destruct w. Qed.

Lemma with_costed_id w : with_costed w (costed w) = w.
Proof. by destruct w. Qed.

Lemma conflict_check_true w event :
  conflict w event ->
  existsb (fun trade =>
             bool_decide (instrument trade ∈ get_active_order_tickers (portfolio_server w)))
          (instructions event) = true.
Proof.
  unfold conflict. rewrite Exists_exists. intros (trade & Hin & Hact).
  apply existsb_exists. exists trade. split.
  - by apply list_elem_of_In.
  - by apply bool_decide_eq_true.
Qed.

Lemma conflict_check_false w event :
  no_conflict w event ->
  existsb (fun trade =>
             bool_decide (instrument trade ∈ get_active_order_tickers (portfolio_server w)))
          (instructions event) = false.
Proof.
  unfold no_conflict. rewrite Forall_forall. intros Hno.
  apply not_true_is_false. intros Hex.
  apply existsb_exists in Hex as (trade & Hin & Hact).
  apply bool_decide_eq_true in Hact.
  apply (Hno trade); [by apply list_elem_of_In | done].
Qed.

Lemma conflict_or_not w event : conflict w event \/ no_conflict w event.
Proof.
  unfold conflict, no_conflict.
  induction (instructions event) as [|trade trades IH].
  - right. constructor.
  - destruct (decide (instrument trade
                      ∈ get_active_order_tickers (portfolio_server w))) as [Hin|Hout].
    + left. by constructor.
    + destruct IH as [IH|IH]; [left; by constructor 2 | right; by constructor].
Qed.

(** *** The costing loop *)

Lemma cost_trades_priced trades :
  forall costs timestamp orders total w,
    priced w trades costs ->
    exists ods : list OrderDetails,
      Forall2 (fun trade od =>
                 order_event_of (symbols_map w) timestamp trade
                 = Some (event_of_details od)) trades ods
      /\ cost_trades timestamp trades orders total w
         = (Ok (orders ++ ods,
                fold_left py_add
                  (filter (fun leg => action leg.1 <> SELL /\ action leg.1 <> COVER)
                          (zip trades costs)).*2
                  total),
            with_costed w (costed w ++ costs)).
Proof.
  induction trades as [|trade trades IH];
    intros costs timestamp orders total w Hpriced;
    inversion Hpriced as [|? c ? costs' Hleg Hrest]; subst.
  - exists []. split; [constructor|].
    cbn. by rewrite !app_nil_r, with_costed_id.
  - unfold OrderManager.leg_cost in Hleg.
    destruct (symbols_map w !! instrument trade) as [symbol|] eqn:Hsym; [|done].
    destruct (order_book w !! instrument_id symbol) as [price|] eqn:Hprice; [|done].
    injection Hleg as <-.
    set (c := cost symbol (quantity (to_order trade)) price).
    set (od := {| od_timestamp := timestamp; od_trade_id := trade_id trade;
                  od_leg_id := leg_id trade; od_action := action trade;
                  od_contract := contract symbol; od_order := to_order trade |}).
    set (total' := if negb (is_exit (action trade)) then py_add total c else total).
    destruct (IH costs' timestamp (orders ++ [od]) total'
                 (with_costed w (costed w ++ [c])) Hrest) as (ods & Hods & Hrun).
    exists (od :: ods). split.
    + constructor; [|exact Hods].
      unfold OrderManager.order_event_of. by rewrite Hsym.
    + cbn [OrderManager.cost_trades].
      unfold bind at 1. unfold symbols_map_getitem. rewrite Hsym.
      unfold bind at 1. unfold retrieve. rewrite Hprice.
      unfold bind at 1. unfold symbol_cost.
      fold c od total'. rewrite Hrun.
      cbn [zip zip_with]. rewrite filter_cons.
      f_equal; [|unfold with_costed; cbn; by rewrite <- app_assoc].
      f_equal. f_equal; [by rewrite <- app_assoc|].
      subst total'. destruct (is_exit (action trade)) eqn:Hexit; cbn [negb].
      * apply is_exit_true in Hexit.
        rewrite decide_False; [done|]. cbn. tauto.
      * apply is_exit_false in Hexit.
        rewrite decide_True; [done|]. cbn. tauto.
Qed.

(** The costing loop touches nothing but the ghost log. *)
Lemma cost_trades_frame trades :
  forall timestamp orders total w r w',
    cost_trades timestamp trades orders total w = (r, w') ->
    symbols_map w' = symbols_map w
    /\ order_book w' = order_book w
    /\ portfolio_server w' = portfolio_server w
    /\ bus w' = bus w.
Proof.
  induction trades as [|trade trades IH];
    intros timestamp orders total w r w' Hrun.
  - injection Hrun as <- <-. done.
  - cbn [OrderManager.cost_trades] in Hrun.
    unfold bind at 1 in Hrun. unfold symbols_map_getitem in Hrun.
    destruct (symbols_map w !! instrument trade) as [symbol|];
      [|injection Hrun as <- <-; done].
    unfold bind at 1 in Hrun. unfold retrieve in Hrun.
    destruct (order_book w !! instrument_id symbol) as [price|];
      [|injection Hrun as <- <-; done].
    unfold bind at 1 in Hrun. unfold symbol_cost in Hrun.
    apply IH in Hrun. exact Hrun.
Qed.

(** A leg that cannot be priced makes the loop raise. *)
Lemma cost_trades_unpriced trades :
  forall timestamp orders total w,
    Exists (fun trade => leg_cost (symbols_map w) (order_book w) trade = None) trades ->
    exists e, (cost_trades timestamp trades orders total w).1 = Raise e.
Proof.
  induction trades as [|trade trades IH]; intros timestamp orders total w Hex.
  - inversion Hex.
  - cbn [OrderManager.cost_trades].
    unfold bind at 1. unfold symbols_map_getitem.
    destruct (symbols_map w !! instrument trade) as [symbol|] eqn:Hsym;
      [|by eexists].
    unfold bind at 1. unfold retrieve.
    destruct (order_book w !! instrument_id symbol) as [price|] eqn:Hprice;
      [|by eexists].
    unfold bind at 1. unfold symbol_cost.
    apply IH.
    inversion Hex as [? ? Hhead|? ? Htail]; subst; [|exact Htail].
    unfold OrderManager.leg_cost in Hhead.
    rewrite Hsym, Hprice in Hhead. discriminate Hhead.
Qed.

(** *** The emitting loop *)

Variable new_order_event :
  Z -> Z -> Z -> Action -> Contract -> BaseOrder -> Result OrderEvent.

Local Abbreviation _set_order :=
  (OrderManager._set_order Contract BaseOrder new_order_event).
Local Abbreviation set_orders :=
  (OrderManager.set_orders Contract BaseOrder new_order_event).
Local Abbreviation built := (OrderManager.built Contract BaseOrder new_order_event).
Local Abbreviation _handle_signal :=
  (OrderManager._handle_signal Contract BaseOrder quantity to_order cost
                               new_order_event).
Local Abbreviation handle_event :=
  (OrderManager.handle_event Contract BaseOrder quantity to_order cost
                             new_order_event).

Lemma set_order_built (od : OrderDetails) (o : OrderEvent) w :
  built od = Ok o ->
  _set_order (od_timestamp od) (od_trade_id od) (od_leg_id od)
             (od_action od) (od_contract od) (od_order od) w
  = (Ok tt, with_bus w (bus w ++ [order_message o])).
Proof. unfold OrderManager.built, OrderManager._set_order. by intros ->. Qed.

Lemma set_order_refused (od : OrderDetails) (cause : Exn) w :
  built od = Raise cause ->
  exists prefix,
    _set_order (od_timestamp od) (od_trade_id od) (od_leg_id od)
               (od_action od) (od_contract od) (od_order od) w
    = (Raise (RuntimeError prefix cause), w).
Proof.
  unfold OrderManager.built, OrderManager._set_order. intros ->.
  destruct cause; eauto.
Qed.

(** When the constructor accepts every order, one ORDER each is published. *)
Lemma set_orders_built (ods : list OrderDetails) (events : list OrderEvent) :
  Forall2 (fun od o => built od = Ok o) ods events ->
  forall w,
    set_orders ods w
    = (Ok tt, with_bus w (bus w ++ map order_message events)).
Proof.
  induction 1 as [|od o ods events Hod _ IH]; intros w.
  - cbn. by rewrite app_nil_r, with_bus_id.
  - cbn [OrderManager.set_orders]. unfold bind at 1.
    rewrite (set_order_built _ _ _ Hod), IH.
    unfold with_bus. cbn. by rewrite <- app_assoc.
Qed.

(** When it refuses one, the loop ends there with a [RuntimeError], the
    ORDERs of the orders before it published. *)
Lemma set_orders_refused (accepted rest : list OrderDetails) (od : OrderDetails)
    (events : list OrderEvent) (cause : Exn) :
  Forall2 (fun od o => built od = Ok o) accepted events ->
  built od = Raise cause ->
  forall w,
    exists prefix,
      set_orders (accepted ++ od :: rest) w
      = (Raise (RuntimeError prefix cause),
         with_bus w (bus w ++ map order_message events)).
Proof.
  intros Hbuilt Hod.
  induction Hbuilt as [|od0 o accepted events Hod0 _ IH]; intros w.
  - cbn [app OrderManager.set_orders map]. unfold bind at 1.
    destruct (set_order_refused _ _ w Hod) as [prefix ->].
    exists prefix. by rewrite app_nil_r, with_bus_id.
  - cbn [app OrderManager.set_orders]. unfold bind at 1.
    rewrite (set_order_built _ _ _ Hod0).
    destruct (IH (with_bus w (bus w ++ [order_message o]))) as [prefix ->].
    exists prefix. unfold with_bus. cbn. by rewrite <- app_assoc.
Qed.

(** Either the constructor accepts every order or there is a first one it
    refuses. *)
Lemma built_or_refused (ods : list OrderDetails) :
  (exists events, Forall2 (fun od o => built od = Ok o) ods events)
  \/ (exists accepted od rest events cause,
        ods = accepted ++ od :: rest
        /\ Forall2 (fun od o => built od = Ok o) accepted events
        /\ built od = Raise cause).
Proof.
  induction ods as [|od ods IH].
  - left. exists []. constructor.
  - destruct (built od) as [o|cause] eqn:Hod.
    + destruct IH as [[events Hall]
                     |(accepted & od' & rest & events & cause & -> & Hall & Hod')].
      * left. exists (o :: events). by constructor.
      * right. exists (od :: accepted), od', rest, (o :: events), cause.
        split; [done|]. split; [by constructor | done].
    + right. exists [], od, ods, [], cause.
      split; [done|]. split; [constructor | done].
Qed.

(** However the loop ends, it has published ORDER events and nothing else,
    and touched nothing but the bus. *)
Lemma set_orders_publishes_orders (ods : list OrderDetails) w r w' :
  set_orders ods w = (r, w') ->
  exists events : list OrderEvent,
    w' = with_bus w (bus w ++ map order_message events)
    /\ (length events <= length ods)%nat.
Proof.
  destruct (built_or_refused ods)
    as [[events Hall]
       |(accepted & od & rest & events & cause & -> & Hall & Hod)].
  - rewrite (set_orders_built _ _ Hall). intros [= <- <-].
    exists events. split; [done|]. by rewrite (Forall2_length _ _ _ Hall).
  - destruct (set_orders_refused _ rest _ _ _ Hall Hod w) as [prefix ->].
    intros [= <- <-]. exists events. split; [done|].
    rewrite length_app, (Forall2_length _ _ _ Hall). lia.
Qed.

(** *** [_handle_signal] and [handle_event] *)

Lemma details_of_event (sm : gmap Z (Symbol Contract)) timestamp trade
    (od : OrderDetails) :
  order_event_of sm timestamp trade = Some (event_of_details od) ->
  order_details_of sm timestamp trade = Some od.
Proof.
  unfold OrderManager.order_event_of, OrderManager.order_details_of.
  destruct (sm !! instrument trade) as [symbol|]; [|done].
  destruct od. unfold event_of_details. cbn. by intros [= -> -> -> -> -> ->].
Qed.

(** With every leg priced, [_handle_signal] costs them all and then either
    runs the emitting loop over their [order_details] or publishes the
    rejection. *)
Lemma handle_signal_priced timestamp trades costs w :
  priced w trades costs ->
  exists ods : list OrderDetails,
    Forall2 (fun trade od => order_details_of (symbols_map w) timestamp trade = Some od)
            trades ods
    /\ _handle_signal timestamp trades w
       = if py_le (spec_total_capital_required (zip trades costs))
                  (capital (portfolio_server w))
         then set_orders ods (with_costed w (costed w ++ costs))
         else (Ok tt,
               with_bus (with_costed w (costed w ++ costs)) (bus w ++ [rejection])).
Proof.
  intros Hpriced.
  destruct (cost_trades_priced trades costs timestamp [] py_zero w Hpriced)
    as (ods & Hods & Hrun).
  exists ods. split.
  - eapply Forall2_impl; [exact Hods|]. intros trade od. apply details_of_event.
  - unfold OrderManager._handle_signal.
    unfold bind at 1. rewrite Hrun. cbn [app].
    unfold bind at 1. unfold gets. cbn [portfolio_server with_costed].
    fold (spec_total_capital_required (zip trades costs)).
    by destruct (py_le _ _).
Qed.

Lemma handle_signal_unpriced timestamp trades w :
  Exists (fun trade => leg_cost (symbols_map w) (order_book w) trade = None) trades ->
  exists e w',
    _handle_signal timestamp trades w = (Raise e, w') /\ bus w' = bus w.
Proof.
  intros Hex.
  destruct (cost_trades_unpriced trades timestamp [] py_zero w Hex) as [e He].
  destruct (cost_trades timestamp trades [] py_zero w) as [r w'] eqn:Hrun.
  cbn in He. subst r.
  exists e, w'. split.
  - unfold OrderManager._handle_signal, bind. by rewrite Hrun.
  - by apply cost_trades_frame in Hrun as (_ & _ & _ & ?).
Qed.

Lemma handle_signal_frame timestamp trades w r w' :
  _handle_signal timestamp trades w = (r, w') ->
  symbols_map w' = symbols_map w
  /\ order_book w' = order_book w
  /\ portfolio_server w' = portfolio_server w
  /\ exists published, bus w' = bus w ++ published.
Proof.
  unfold OrderManager._handle_signal. unfold bind at 1.
  destruct (cost_trades timestamp trades [] py_zero w) as [[[ods total]|e] w1] eqn:Hrun;
    apply cost_trades_frame in Hrun as (Hsm & Hob & Hps & Hbus).
  - unfold bind, gets. destruct (py_le _ _).
    + intros Hset. apply set_orders_publishes_orders in Hset as (events & -> & _).
      cbn. rewrite Hsm, Hob, Hps, Hbus. eauto.
    + unfold publish. intros [= <- <-]. cbn.
      rewrite Hsm, Hob, Hps, Hbus. eauto.
  - intros [= <- <-]. rewrite Hsm, Hob, Hps, Hbus.
    repeat split. exists []. by rewrite app_nil_r.
Qed.

Lemma handle_event_conflict event w :
  conflict w event ->
  handle_event event w = (Ok tt, with_bus w (bus w ++ [rejection])).
Proof.
  intros Hconflict. unfold OrderManager.handle_event, bind, gets.
  by rewrite (conflict_check_true _ _ Hconflict).
Qed.

Lemma handle_event_no_conflict event w :
  no_conflict w event ->
  handle_event event w = _handle_signal (timestamp event) (instructions event) w.
Proof.
  intros Hno. unfold OrderManager.handle_event, bind, gets.
  by rewrite (conflict_check_false _ _ Hno).
Qed.

Lemma spec_total_exits trades :
  forall costs,
    Forall (fun trade => action trade = SELL \/ action trade = COVER) trades ->
    spec_total_capital_required (zip trades costs) = py_zero.
Proof.
  unfold spec_total_capital_required.
  induction trades as [|trade trades IH]; intros [|c costs] Hexits; try done.
  inversion Hexits as [|? ? Hexit Hrest]; subst.
  cbn [zip zip_with]. rewrite filter_cons, decide_False; [by apply IH|].
  cbn. tauto.
Qed.

(** *** The claims about [handle_event] *)

(** C1, as the code has it: a signal that passes the conflict check and
    whose legs are all priced is rejected whole when totalCapitalRequired
    exceeds the available capital: one UPDATE_SYSTEM event carrying [False]
    and no ORDER event.  Otherwise the emitting loop runs over the
    [order_details] of the legs, in instruction order.  If the [OrderEvent] of
    every leg is built, the bus receives exactly one ORDER event per
    instruction, in instruction order, and nothing else.  If the constructor
    refuses the event of a leg, [handle_event] raises [RuntimeError] with the
    ORDER events of the legs before that one published, and nothing for that
    leg, for the later ones or as a rejection. *)
Theorem signal_rejected_emitted_or_cut_short event w costs :
  no_conflict w event ->
  priced w (instructions event) costs ->
  exists orders : list OrderDetails,
    Forall2 (fun trade od =>
               order_details_of (symbols_map w) (timestamp event) trade = Some od)
            (instructions event) orders
    /\ (py_le (spec_total_capital_required (zip (instructions event) costs))
              (capital (portfolio_server w)) = false ->
        exists w' : World,
          handle_event event w = (Ok tt, w')
          /\ bus w' = bus w ++ [rejection])
    /\ (py_le (spec_total_capital_required (zip (instructions event) costs))
              (capital (portfolio_server w)) = true ->
        forall order_events : list OrderEvent,
          Forall2 (fun od o => built od = Ok o) orders order_events ->
          exists w' : World,
            handle_event event w = (Ok tt, w')
            /\ bus w' = bus w ++ map order_message order_events)
    /\ (py_le (spec_total_capital_required (zip (instructions event) costs))
              (capital (portfolio_server w)) = true ->
        forall (accepted rest : list OrderDetails) (od : OrderDetails)
               (order_events : list OrderEvent) (cause : Exn),
          orders = accepted ++ od :: rest ->
          Forall2 (fun od o => built od = Ok o) accepted order_events ->
          built od = Raise cause ->
          exists (prefix : string) (w' : World),
            handle_event event w = (Raise (RuntimeError prefix cause), w')
            /\ bus w' = bus w ++ map order_message order_events).
Proof.
  intros Hno Hpriced.
  destruct (handle_signal_priced (timestamp event) _ _ _ Hpriced)
    as (orders & Horders & Hrun).
  rewrite <- handle_event_no_conflict in Hrun by done.
  exists orders. split; [exact Horders|].
  split; [|split].
  - intros Hle. rewrite Hle in Hrun. by eexists.
  - intros Hle order_events Hbuilt. rewrite Hle in Hrun.
    rewrite (set_orders_built _ _ Hbuilt) in Hrun. by eexists.
  - intros Hle accepted rest od order_events cause -> Hbuilt Hod.
    rewrite Hle in Hrun.
    destruct (set_orders_refused _ rest _ _ _ Hbuilt Hod
                (with_costed w (costed w ++ costs))) as [prefix Hset].
    rewrite Hset in Hrun. by eexists prefix, _.
Qed.

(** C2: when every leg is priced, the total the costing loop hands to the
    admission test is the sum of the costs of exactly the legs whose action
    is neither SELL nor COVER. *)
Theorem total_capital_required_skips_exits timestamp trades costs w :
  priced w trades costs ->
  exists (orders : list OrderDetails) (w' : World),
    cost_trades timestamp trades [] py_zero w
    = (Ok (orders, spec_total_capital_required (zip trades costs)), w').
Proof.
  intros Hpriced.
  destruct (cost_trades_priced trades costs timestamp [] py_zero w Hpriced)
    as (ods & _ & Hrun).
  eexists _, _. exact Hrun.
Qed.

(** C3: a signal that names an instrument with an active order is rejected
    whole: [handle_event] returns normally, the bus receives exactly one
    UPDATE_SYSTEM event carrying [False] and no ORDER event, and no leg is
    costed (the log of cost computations is unchanged, and neither the
    symbol map nor the order book needs to know any leg). *)
Theorem conflicting_signal_rejected event w :
  conflict w event ->
  handle_event event w = (Ok tt, with_bus w (bus w ++ [rejection]))
  /\ costed (handle_event event w).2 = costed w.
Proof.
  intros Hconflict. rewrite handle_event_conflict by done. done.
Qed.

(** C4: if some leg of the signal cannot be priced, no ORDER event is
    published: either the conflict check already rejected the signal, or
    the lookup failure leaves [handle_event] as an exception before anything
    is published. *)
Theorem unpriced_leg_emits_no_order event w :
  Exists (fun trade => leg_cost (symbols_map w) (order_book w) trade = None)
         (instructions event) ->
  exists r w' published,
    handle_event event w = (r, w')
    /\ bus w' = bus w ++ published
    /\ Forall (fun m => m.1 <> ORDER) published
    /\ (no_conflict w event -> published = [] /\ exists e, r = Raise e).
Proof.
  intros Hex. destruct (conflict_or_not w event) as [Hconflict|Hno].
  - exists (Ok tt), (with_bus w (bus w ++ [rejection])), [rejection].
    split; [by apply handle_event_conflict|]. split; [done|].
    split; [by repeat constructor|].
    intros Hno. exfalso.
    unfold conflict in Hconflict. unfold no_conflict in Hno.
    rewrite Exists_exists in Hconflict. rewrite Forall_forall in Hno.
    destruct Hconflict as (trade & Hin & Hact). by apply (Hno trade).
  - destruct (handle_signal_unpriced (timestamp event) _ w Hex)
      as (e & w' & Hrun & Hbus).
    exists (Raise e), w', []. rewrite handle_event_no_conflict by done.
    split; [done|]. split; [by rewrite app_nil_r|].
    split; [constructor|]. eauto.
Qed.

(** C5: however [handle_event] ends, the portfolio state (capital,
    positions, active orders) is what it was, and so are the symbol map and
    the order book; the bus only grows. *)
Theorem handle_event_reads_portfolio_only event w :
  portfolio_server (handle_event event w).2 = portfolio_server w
  /\ symbols_map (handle_event event w).2 = symbols_map w
  /\ order_book (handle_event event w).2 = order_book w
  /\ exists published, bus (handle_event event w).2 = bus w ++ published.
Proof.
  destruct (conflict_or_not w event) as [Hconflict|Hno].
  - rewrite handle_event_conflict by done. cbn. eauto.
  - rewrite handle_event_no_conflict by done.
    destruct (_handle_signal (timestamp event) (instructions event) w)
      as [r w'] eqn:Hrun.
    apply handle_signal_frame in Hrun as (? & ? & ? & ?). cbn. eauto.
Qed.

(** C10: for a signal of exits only (every action SELL or COVER), without
    conflict and with every leg priced, the required capital is [0] and the
    signal is admitted exactly when [0 <= available capital]: when the test
    holds, [handle_event] goes on to the emitting loop over the
    [order_details] of all the legs (which publishes one ORDER per leg when
    every [OrderEvent] is built); when it fails, the bus receives one
    UPDATE_SYSTEM [False] and no ORDER. *)
Theorem exit_only_signal_needs_nonnegative_capital event w costs :
  no_conflict w event ->
  priced w (instructions event) costs ->
  Forall (fun trade => action trade = SELL \/ action trade = COVER)
         (instructions event) ->
  exists (orders : list OrderDetails) (w1 : World),
    cost_trades (timestamp event) (instructions event) [] py_zero w
    = (Ok (orders, py_zero), w1)
    /\ bus w1 = bus w
    /\ Forall2 (fun trade od =>
                  order_details_of (symbols_map w) (timestamp event) trade = Some od)
               (instructions event) orders
    /\ (py_le py_zero (capital (portfolio_server w)) = true ->
        handle_event event w = set_orders orders w1
        /\ forall order_events : list OrderEvent,
             Forall2 (fun od o => built od = Ok o) orders order_events ->
             handle_event event w
             = (Ok tt, with_bus w1 (bus w ++ map order_message order_events)))
    /\ (py_le py_zero (capital (portfolio_server w)) = false ->
        handle_event event w = (Ok tt, with_bus w1 (bus w ++ [rejection]))).
Proof.
  intros Hno Hpriced Hexits.
  destruct (cost_trades_priced _ _ (timestamp event) [] py_zero w Hpriced)
    as (ods & Hods & Hcost).
  fold (spec_total_capital_required (zip (instructions event) costs)) in Hcost.
  rewrite (spec_total_exits _ _ Hexits) in Hcost.
  assert (_handle_signal (timestamp event) (instructions event) w
          = if py_le py_zero (capital (portfolio_server w))
            then set_orders ods (with_costed w (costed w ++ costs))
            else (Ok tt, with_bus (with_costed w (costed w ++ costs))
                                  (bus w ++ [rejection]))) as Hrun.
  { unfold OrderManager._handle_signal.
    unfold bind at 1. rewrite Hcost. cbn [app].
    unfold bind at 1. unfold gets. cbn [portfolio_server with_costed].
    by destruct (py_le _ _). }
  rewrite <- handle_event_no_conflict in Hrun by done.
  exists ods, (with_costed w (costed w ++ costs)).
  split; [exact Hcost|]. split; [done|]. split.
  { eapply Forall2_impl; [exact Hods|]. intros trade od. apply details_of_event. }
  split; intros Hle; rewrite Hle in Hrun.
  - split; [exact Hrun|]. intros order_events Hbuilt.
    by rewrite Hrun, (set_orders_built _ _ Hbuilt).
  - exact Hrun.
Qed.

End Engine.

(** *** Runs on the demo world *)

Lemma demo_no_conflict legs available :
  no_conflict (demo_world available ∅) (signal_of legs).
Proof.
  unfold no_conflict, get_active_order_tickers. cbn.
  rewrite map_to_list_empty. apply Forall_forall. intros trade _.
  apply not_elem_of_nil.
Qed.

Lemma demo_priced_buy_sell available active :
  priced (H := Q_PyNum) string Q demo_quantity demo_to_order demo_cost
         (demo_world available active) [buy_a; sell_b] [1000%Q; 800%Q].
Proof. repeat constructor. Qed.

Lemma demo_priced_exits available active :
  priced (H := Q_PyNum) string Q demo_quantity demo_to_order demo_cost
         (demo_world available active) [sell_b; cover_a] [800%Q; 1000%Q].
Proof. repeat constructor. Qed.

(** The example of the specification: a BUY leg costing 1000 and a SELL leg
    costing 800 against an available capital of 1000 are admitted, two ORDER
    events in signal order; one unit of capital less and the signal is
    rejected. *)
Example buy_1000_sell_800_admitted :
  bus (demo_handle_event (signal_of [buy_a; sell_b]) (demo_world 1000%Q ∅)).2
  = [ (ORDER, OrderPayload
         {| oe_timestamp := 1712850060000000000; oe_trade_id := 1; oe_leg_id := 1;
            oe_action := BUY; oe_contract := "A"; oe_order := 10%Q |});
      (ORDER, OrderPayload
         {| oe_timestamp := 1712850060000000000; oe_trade_id := 1; oe_leg_id := 2;
            oe_action := SELL; oe_contract := "B"; oe_order := 10%Q |}) ]
  /\ bus (demo_handle_event (signal_of [buy_a; sell_b]) (demo_world 999%Q ∅)).2
     = [ (UPDATE_SYSTEM, BoolPayload false) ].
Proof. split; vm_compute; reflexivity. Qed.

Lemma demo_priced_three_buys available active :
  priced (H := Q_PyNum) string Q demo_quantity demo_to_order demo_cost
         (demo_world available active) [buy_a; buy_b_unnumbered; buy_more_a]
         [1000%Q; 800%Q; 500%Q].
Proof. repeat constructor. Qed.

Lemma signal_rejected_emitted_or_cut_short_witness :
  exists orders : list (OrderDetails string Q),
    Forall2 (fun trade od =>
               order_details_of (H := Q_PyNum) string Q demo_to_order demo_symbols
                 1712850060000000000 trade = Some od)
            [buy_a; buy_b_unnumbered; buy_more_a] orders
    /\ (Qle_bool (spec_total_capital_required
                    (zip [buy_a; buy_b_unnumbered; buy_more_a]
                         [1000%Q; 800%Q; 500%Q])) 5000%Q = false ->
        exists w',
          demo_handle_event (signal_of [buy_a; buy_b_unnumbered; buy_more_a])
                            (demo_world 5000%Q ∅) = (Ok tt, w')
          /\ bus w' = [] ++ [rejection])
    /\ (Qle_bool (spec_total_capital_required
                    (zip [buy_a; buy_b_unnumbered; buy_more_a]
                         [1000%Q; 800%Q; 500%Q])) 5000%Q = true ->
        forall order_events,
          Forall2 (fun od o => built string Q demo_new_order_event od = Ok o)
                  orders order_events ->
          exists w',
            demo_handle_event (signal_of [buy_a; buy_b_unnumbered; buy_more_a])
                              (demo_world 5000%Q ∅) = (Ok tt, w')
            /\ bus w' = [] ++ map order_message order_events)
    /\ (Qle_bool (spec_total_capital_required
                    (zip [buy_a; buy_b_unnumbered; buy_more_a]
                         [1000%Q; 800%Q; 500%Q])) 5000%Q = true ->
        forall accepted rest od order_events cause,
          orders = accepted ++ od :: rest ->
          Forall2 (fun od o => built string Q demo_new_order_event od = Ok o)
                  accepted order_events ->
          built string Q demo_new_order_event od = Raise cause ->
          exists prefix w',
            demo_handle_event (signal_of [buy_a; buy_b_unnumbered; buy_more_a])
                              (demo_world 5000%Q ∅)
            = (Raise (RuntimeError prefix cause), w')
            /\ bus w' = [] ++ map order_message order_events).
Proof.
  apply (signal_rejected_emitted_or_cut_short (H := Q_PyNum) string Q
           demo_quantity demo_to_order demo_cost demo_new_order_event
           (signal_of [buy_a; buy_b_unnumbered; buy_more_a])
           (demo_world 5000%Q ∅) [1000%Q; 800%Q; 500%Q]).
  - apply demo_no_conflict.
  - apply demo_priced_three_buys.
Defined.

(** C1, as the specification states it, fails.  The signal has three BUY legs
    on priced instruments without active orders, costing 1000, 800 and 500,
    and 5000 is available, so it is admitted; the constructor refuses the
    second leg, whose [trade_id] is 0.  [handle_event] raises [RuntimeError]
    with the ORDER of the first leg published: one ORDER for three
    instructions, and no rejection. *)
Lemma admitted_signal_emitted_in_part :
  no_conflict (demo_world 5000%Q ∅)
              (signal_of [buy_a; buy_b_unnumbered; buy_more_a])
  /\ priced (H := Q_PyNum) string Q demo_quantity demo_to_order demo_cost
            (demo_world 5000%Q ∅) [buy_a; buy_b_unnumbered; buy_more_a]
            [1000%Q; 800%Q; 500%Q]
  /\ Qle_bool (spec_total_capital_required
                 (zip [buy_a; buy_b_unnumbered; buy_more_a]
                      [1000%Q; 800%Q; 500%Q])) 5000%Q = true
  /\ (demo_handle_event (signal_of [buy_a; buy_b_unnumbered; buy_more_a])
                        (demo_world 5000%Q ∅)).1
     = Raise (RuntimeError "Failed to set OrderEvent due to input : "
                (ValueError "'trade_id' and 'leg_id' must be greater than zero."))
  /\ bus (demo_handle_event (signal_of [buy_a; buy_b_unnumbered; buy_more_a])
                            (demo_world 5000%Q ∅)).2
     = [ (ORDER, OrderPayload
            {| oe_timestamp := 1712850060000000000; oe_trade_id := 1;
               oe_leg_id := 1; oe_action := BUY; oe_contract := "A";
               oe_order := 10%Q |}) ]
  /\ ~ (exists order_events : list (OrderEvent string Q),
          length order_events = length [buy_a; buy_b_unnumbered; buy_more_a]
          /\ bus (demo_handle_event
                    (signal_of [buy_a; buy_b_unnumbered; buy_more_a])
                    (demo_world 5000%Q ∅)).2
             = map order_message order_events)
  /\ bus (demo_handle_event (signal_of [buy_a; buy_b_unnumbered; buy_more_a])
                            (demo_world 5000%Q ∅)).2
     <> [rejection].
Proof.
  assert (bus (demo_handle_event (signal_of [buy_a; buy_b_unnumbered; buy_more_a])
                                 (demo_world 5000%Q ∅)).2
          = [ (ORDER, OrderPayload
                 {| oe_timestamp := 1712850060000000000; oe_trade_id := 1;
                    oe_leg_id := 1; oe_action := BUY; oe_contract := "A";
                    oe_order := 10%Q |}) ]) as Hbus
    by (vm_compute; reflexivity).
  split; [apply demo_no_conflict|].
  split; [apply demo_priced_three_buys|].
  split; [vm_compute; reflexivity|].
  split; [vm_compute; reflexivity|].
  split; [exact Hbus|]. rewrite Hbus. split.
  - intros (order_events & Hlen & Hmap).
    apply (f_equal length) in Hmap. rewrite length_map, Hlen in Hmap.
    discriminate Hmap.
  - unfold rejection. discriminate.
Qed.

Lemma total_capital_required_skips_exits_witness :
  exists orders w',
    cost_trades (H := Q_PyNum) string Q demo_quantity demo_to_order demo_cost
      1712850060000000000 [buy_a; sell_b] [] 0%Q (demo_world 1000%Q ∅)
    = (Ok (orders,
           spec_total_capital_required (zip [buy_a; sell_b] [1000%Q; 800%Q])),
       w').
Proof.
  apply (total_capital_required_skips_exits (H := Q_PyNum) string Q demo_quantity demo_to_order
           demo_cost 1712850060000000000 [buy_a; sell_b] [1000%Q; 800%Q]
           (demo_world 1000%Q ∅)).
  apply demo_priced_buy_sell.
Defined.

Lemma conflicting_signal_rejected_witness :
  demo_handle_event (signal_of [buy_a; sell_b])
    (demo_world 1000%Q {[ 1 := demo_active_order ]})
  = (Ok tt,
     with_bus (demo_world 1000%Q {[ 1 := demo_active_order ]}) ([] ++ [rejection]))
  /\ costed (demo_handle_event (signal_of [buy_a; sell_b])
               (demo_world 1000%Q {[ 1 := demo_active_order ]})).2 = [].
Proof.
  apply (conflicting_signal_rejected (H := Q_PyNum) string Q demo_quantity demo_to_order
           demo_cost demo_new_order_event (signal_of [buy_a; sell_b])
           (demo_world 1000%Q {[ 1 := demo_active_order ]})).
  unfold conflict, get_active_order_tickers. cbn.
  rewrite map_to_list_singleton. left. cbn. apply list_elem_of_here.
Defined.

Lemma unpriced_leg_emits_no_order_witness :
  exists r w' published,
    demo_handle_event (signal_of [buy_a; sell_b]) (world_without_b 5000%Q)
    = (r, w')
    /\ bus w' = [] ++ published
    /\ Forall (fun m => m.1 <> ORDER) published
    /\ (no_conflict (world_without_b 5000%Q) (signal_of [buy_a; sell_b]) ->
        published = [] /\ exists e, r = Raise e).
Proof.
  apply (unpriced_leg_emits_no_order (H := Q_PyNum) string Q demo_quantity demo_to_order
           demo_cost demo_new_order_event (signal_of [buy_a; sell_b])
           (world_without_b 5000%Q)).
  right. left. reflexivity.
Defined.

(** The example of the specification: a signal over A and B with B never
    priced.  Both symbols are known and the capital is ample; the lookup of
    B's price fails after the leg on A was costed, [handle_event] ends with
    that failure and the bus stays empty. *)
Example b_never_priced_no_order :
  leg_cost (H := Q_PyNum) string Q demo_quantity demo_to_order demo_cost
           demo_symbols book_without_b buy_a = Some 1000%Q
  /\ demo_symbols !! instrument sell_b
     = Some {| instrument_id := 2; contract := "B" |}
  /\ book_without_b !! 2 = None
  /\ demo_handle_event (signal_of [buy_a; sell_b]) (world_without_b 5000%Q)
     = (Raise (NotFound 2),
        with_costed (world_without_b 5000%Q) [1000%Q]).
Proof. repeat split; vm_compute; reflexivity. Qed.

Lemma exit_only_signal_needs_nonnegative_capital_witness :
  exists (orders : list (OrderDetails string Q)) w1,
    cost_trades (H := Q_PyNum) string Q demo_quantity demo_to_order demo_cost
      1712850060000000000 [sell_b; cover_a] [] 0%Q (demo_world (-5)%Q ∅)
    = (Ok (orders, 0%Q), w1)
    /\ bus w1 = []
    /\ Forall2 (fun trade od =>
                  order_details_of (H := Q_PyNum) string Q demo_to_order demo_symbols
                    1712850060000000000 trade = Some od)
               [sell_b; cover_a] orders
    /\ (Qle_bool 0%Q (-5)%Q = true ->
        demo_handle_event (signal_of [sell_b; cover_a]) (demo_world (-5)%Q ∅)
        = set_orders string Q demo_new_order_event orders w1
        /\ forall order_events,
             Forall2 (fun od o => built string Q demo_new_order_event od = Ok o)
                     orders order_events ->
             demo_handle_event (signal_of [sell_b; cover_a]) (demo_world (-5)%Q ∅)
             = (Ok tt, with_bus w1 ([] ++ map order_message order_events)))
    /\ (Qle_bool 0%Q (-5)%Q = false ->
        demo_handle_event (signal_of [sell_b; cover_a]) (demo_world (-5)%Q ∅)
        = (Ok tt, with_bus w1 ([] ++ [rejection]))).
Proof.
  apply (exit_only_signal_needs_nonnegative_capital (H := Q_PyNum) string Q demo_quantity
           demo_to_order demo_cost demo_new_order_event (signal_of [sell_b; cover_a])
           (demo_world (-5)%Q ∅) [800%Q; 1000%Q]).
  - apply demo_no_conflict.
  - apply demo_priced_exits.
  - constructor; [by left|]. constructor; [by right|]. constructor.
Defined.

(** An exit-only signal against a negative available capital is rejected; with
    nothing available it is admitted and both legs are emitted. *)
Example exits_rejected_on_negative_capital :
  bus (demo_handle_event (signal_of [sell_b; cover_a]) (demo_world (-5)%Q ∅)).2
  = [ (UPDATE_SYSTEM, BoolPayload false) ]
  /\ demo_handle_event (signal_of [sell_b; cover_a]) (demo_world 0%Q ∅)
     = (Ok tt,
        with_bus (with_costed (demo_world 0%Q ∅) [800%Q; 1000%Q])
          [ (ORDER, OrderPayload
               {| oe_timestamp := 1712850060000000000; oe_trade_id := 1;
                  oe_leg_id := 2; oe_action := SELL; oe_contract := "B";
                  oe_order := 10%Q |});
            (ORDER, OrderPayload
               {| oe_timestamp := 1712850060000000000; oe_trade_id := 2;
                  oe_leg_id := 1; oe_action := COVER; oe_contract := "A";
                  oe_order := 10%Q |}) ]).
Proof. split; vm_compute; reflexivity. Qed.

End OrderManagerFacts.

(** ** The worker loop of the order execution manager *)

Module AdapterFacts.
Import OrderManager.

Section Engine.
Context `{PyNum}.
Variables Contract BaseOrder : Type.
Variable quantity : BaseOrder -> number.
Variable to_order : SignalInstruction -> BaseOrder.
Variable cost : Symbol Contract -> number -> number -> number.
Variable new_order_event :
  Z -> Z -> Z -> Action -> Contract -> BaseOrder
  -> Result (OrderManager.OrderEvent Contract BaseOrder).

Local Abbreviation Adapter := (OrderManager.Adapter Contract BaseOrder).
Local Abbreviation World := (OrderManager.World Contract BaseOrder).
Local Abbreviation step :=
  (OrderManager.step Contract BaseOrder quantity to_order cost new_order_event).
Local Abbreviation transition :=
  (OrderManager.transition Contract BaseOrder quantity to_order cost
                           new_order_event).
Local Abbreviation run :=
  (OrderManager.run Contract BaseOrder quantity to_order cost new_order_event).

Lemma run_app (s1 s2 : list Label) (a : Adapter) :
  run (s1 ++ s2) a = run s2 (run s1 a).
Proof. apply fold_left_app. Qed.

(** A thread inside [get()] on an empty queue stays there, whatever the
    state of [shutdown_event], for as long as nothing is put. *)
Lemma blocked_in_get (schedule : list Label) :
  forall a : Adapter,
    pc a = InGet ->
    signal_queue a = [] ->
    Forall (fun l => is_put l = false) schedule ->
    pc (run schedule a) = InGet
    /\ signal_queue (run schedule a) = []
    /\ cleanups (run schedule a) = cleanups a
    /\ (shutdown_event a = true -> shutdown_event (run schedule a) = true).
Proof.
  induction schedule as [|l schedule IH]; intros a Hpc Hqueue Hnoput.
  - done.
  - inversion Hnoput as [|? ? Hl Hrest]; subst.
    cbn [OrderManager.run fold_left].
    assert (pc (transition a l) = InGet
            /\ signal_queue (transition a l) = []
            /\ cleanups (transition a l) = cleanups a
            /\ (shutdown_event a = true -> shutdown_event (transition a l) = true))
      as (Hpc' & Hqueue' & Hcleanups' & Hshutdown').
    { destruct l; try done.
      cbn. unfold OrderManager.step. by rewrite Hpc, Hqueue. }
    destruct (IH _ Hpc' Hqueue' Hrest) as (? & ? & Hc & Hs).
    unfold OrderManager.run in *.
    repeat split; [done | done | congruence | auto].
Qed.

(** A thread ended by an exception never runs [cleanup]. *)
Lemma crashed_forever (schedule : list Label) :
  forall (a : Adapter) e,
    pc a = Crashed e ->
    pc (run schedule a) = Crashed e
    /\ cleanups (run schedule a) = cleanups a.
Proof.
  induction schedule as [|l schedule IH]; intros a e Hpc.
  - done.
  - cbn [OrderManager.run fold_left].
    assert (pc (transition a l) = Crashed e
            /\ cleanups (transition a l) = cleanups a) as (Hpc' & Hcleanups').
    { destruct l; try done.
      cbn. unfold OrderManager.step. by rewrite Hpc. }
    destruct (IH _ e Hpc') as (? & Hc).
    unfold OrderManager.run in *. split; [done | congruence].
Qed.

(** C6: the thread is started on an empty queue and reaches [get()]; then
    shutdown is requested.  Whatever happens next short of a new event
    (polling intervals passing, the thread being scheduled, shutdown being
    requested again), the thread is still inside [get()]: it has not left
    the loop and has not run [cleanup]. *)
Theorem shutdown_unobserved_on_empty_queue (w : World) (schedule : list Label) :
  let a := run ([ThreadStep; ThreadStep; SetShutdown]
                ++ filter (fun l => is_put l = false) schedule)
               (new_adapter w) in
  shutdown_event a = true
  /\ pc a = InGet
  /\ exited a = false
  /\ cleanups a = 0%nat.
Proof.
  intros a. subst a. rewrite run_app.
  set (a0 := run [ThreadStep; ThreadStep; SetShutdown] (new_adapter w)).
  destruct (blocked_in_get (filter (fun l => is_put l = false) schedule) a0)
    as (Hpc & _ & Hcleanups & Hshutdown); try done.
  { apply Forall_forall. intros l Hl. by apply list_elem_of_filter in Hl as [? _]. }
  unfold exited. rewrite Hpc, Hcleanups. auto.
Qed.

End Engine.

(** C7: an exception of [handle_event] ends [OrderExecutionManager.process]
    without [cleanup].  The signal names instrument 7, which the symbol map
    does not hold: the thread dies of [KeyError], and [cleanup] has not run
    then and does not run later, although a normal shutdown runs it once and
    [PerformanceManager.process] runs it once however its body ends. *)
Theorem order_manager_error_exit_skips_cleanup :
  (forall schedule,
     let a := demo_run ([ThreadStep; Put (signal_of [buy_unknown]);
                         ThreadStep; ThreadStep] ++ schedule)
                       (new_adapter (demo_world 1000%Q ∅)) in
     pc a = Crashed (KeyError 7) /\ exited a = true /\ cleanups a = 0%nat)
  /\ (let a := demo_run [ThreadStep; ThreadStep; Put (signal_of [buy_a]);
                         ThreadStep; SetShutdown; ThreadStep]
                        (new_adapter (demo_world 1000%Q ∅)) in
      pc a = Finished /\ cleanups a = 1%nat)
  /\ (forall body s,
        PerformanceManager.cleanups (PerformanceManager.process body s).2
        = S (PerformanceManager.cleanups (body s).2)).
Proof.
  split; [|split].
  - intros schedule a. subst a.
    rewrite (run_app (H := Q_PyNum) string Q demo_quantity demo_to_order demo_cost
               demo_new_order_event).
    set (a0 := demo_run _ (new_adapter _)).
    assert (pc a0 = Crashed (KeyError 7)) as Hcrashed by (vm_compute; reflexivity).
    assert (cleanups a0 = 0%nat) as Hzero by (vm_compute; reflexivity).
    destruct (crashed_forever (H := Q_PyNum) string Q demo_quantity demo_to_order
                demo_cost demo_new_order_event schedule a0 (KeyError 7) Hcrashed)
      as (Hpc & Hcleanups).
    unfold exited. rewrite Hpc, Hcleanups.
    split; [reflexivity|]. split; [reflexivity | exact Hzero].
  - vm_compute. split; reflexivity.
  - intros body s. unfold PerformanceManager.process.
    by destruct (body s).
Qed.

End AdapterFacts.

(** ** The core engine *)

Module CoreEngineFacts.
Import CoreEngine.

Lemma adapters_setitem_completed key (self : gmap string PyVal) :
  self !! "completed" = None -> adapters_setitem key self !! "completed" = None.
Proof.
  intros Hnone. unfold adapters_setitem.
  destruct (self !! "adapters") as [[]|]; try done.
  by rewrite lookup_insert_ne.
Qed.

(** No method of the class ever creates the attribute [completed]. *)
Lemma reachable_no_completed (self : gmap string PyVal) :
  reachable self -> self !! "completed" = None.
Proof.
  induction 1 as [| self _ IH | self _ IH | self _ IH | self _ IH | self _ IH].
  - reflexivity.
  - unfold initialize. by do 4 apply adapters_setitem_completed.
  - by apply adapters_setitem_completed.
  - unfold start.
    destruct (self !! "adapters") as [[]|]; try done.
    destruct (self !! "threads") as [[]|]; try done.
    by rewrite !lookup_insert_ne.
  - unfold adapter_threads_terminate.
    destruct (self !! "threads") as [[]|]; try done.
    by rewrite lookup_insert_ne.
  - unfold _monitor_threads, getattr. rewrite IH.
    destruct (self !! "threads") as [[]|]; try done.
    destruct (forallb id terminated); [|done].
    by destruct (self !! "logger").
Qed.

(** C8: on no engine that the class can produce does the monitor signal
    completion or [wait_until_complete] return: the attribute [completed] is
    never created, so [wait_until_complete] raises [AttributeError], and the
    monitor never returns normally.  On the demo engine, whose adapter
    threads have all ended, the monitor joins them and then raises the same
    [AttributeError]. *)
Theorem completion_never_signalled (self : gmap string PyVal) :
  reachable self ->
  wait_until_complete self = Raised (AttributeError "completed")
  /\ (_monitor_threads self).1 <> Returned
  /\ wait_until_complete (_monitor_threads self).2
     = Raised (AttributeError "completed").
Proof.
  intros Hreach.
  pose proof (reachable_no_completed _ Hreach) as Hnone.
  pose proof (reachable_no_completed _ (reach_monitor _ Hreach)) as Hnone'.
  unfold wait_until_complete, getattr. rewrite Hnone, Hnone'.
  split; [done|]. split; [|done].
  unfold _monitor_threads, getattr. rewrite Hnone.
  destruct (self !! "threads") as [[]|]; try done.
  destruct (forallb id terminated); [|done].
  by destruct (self !! "logger").
Qed.

Lemma demo_engine_reachable : reachable demo_engine.
Proof.
  unfold demo_engine.
  apply reach_threads_terminate, reach_start, reach_set_strategy,
    reach_initialize, reach_init.
Qed.

Lemma completion_never_signalled_witness :
  wait_until_complete demo_engine = Raised (AttributeError "completed")
  /\ (_monitor_threads demo_engine).1 <> Returned
  /\ wait_until_complete (_monitor_threads demo_engine).2
     = Raised (AttributeError "completed").
Proof.
  apply (completion_never_signalled demo_engine).
  apply demo_engine_reachable.
Defined.

(** The run of the claim: five adapter threads, all ended; the monitor joins
    them and dies of [AttributeError], and so does the waiting driver. *)
Example demo_engine_monitor_raises :
  demo_engine !! "threads" = Some (VThreads [true; true; true; true; true])
  /\ (_monitor_threads demo_engine).1 = Raised (AttributeError "completed")
  /\ wait_until_complete demo_engine = Raised (AttributeError "completed").
Proof. vm_compute. done. Qed.

End CoreEngineFacts.

(** ** More on the order execution manager *)

Module OrderManagerMore.
Import OrderManager OrderManagerFacts.

Section Engine.
Context `{PyNum}.
Variables Contract BaseOrder : Type.
Variable quantity : BaseOrder -> number.
Variable to_order : SignalInstruction -> BaseOrder.
Variable cost : Symbol Contract -> number -> number -> number.

Local Abbreviation World := (OrderManager.World Contract BaseOrder).
Local Abbreviation OrderDetails := (OrderManager.OrderDetails Contract BaseOrder).
Local Abbreviation OrderEvent := (OrderManager.OrderEvent Contract BaseOrder).
Local Abbreviation cost_trades :=
  (OrderManager.cost_trades Contract BaseOrder quantity to_order cost).
Local Abbreviation leg_cost :=
  (OrderManager.leg_cost Contract BaseOrder quantity to_order cost).
Local Abbreviation priced :=
  (OrderManager.priced Contract BaseOrder quantity to_order cost).
Local Abbreviation order_details_of :=
  (OrderManager.order_details_of Contract BaseOrder to_order).
Local Abbreviation with_capital := (OrderManager.with_capital Contract BaseOrder).

Implicit Types (w : World) (trade : SignalInstruction)
  (trades : list SignalInstruction) (costs : list number)
  (event : SignalEvent).

(** Either every leg has a cost or some leg has none. *)
Lemma priced_or_unpriced w trades :
  (exists costs, priced w trades costs)
  \/ Exists (fun trade => leg_cost (symbols_map w) (order_book w) trade = None) trades.
Proof.
  induction trades as [|trade trades IH].
  - left. exists []. constructor.
  - destruct (leg_cost (symbols_map w) (order_book w) trade) as [c|] eqn:Hleg.
    + destruct IH as [[costs Hpriced]|Hex].
      * left. exists (c :: costs). by constructor.
      * right. by constructor 2.
    + right. by constructor.
Qed.

(** The exception of the costing loop is the lookup failure of the first leg
    that cannot be priced. *)
Lemma cost_trades_raises trades :
  forall timestamp orders total w e w',
    cost_trades timestamp trades orders total w = (Raise e, w') ->
    exists trade,
      trade ∈ trades
      /\ (symbols_map w !! instrument trade = None /\ e = KeyError (instrument trade)
          \/ exists symbol,
               symbols_map w !! instrument trade = Some symbol
               /\ order_book w !! instrument_id symbol = None
               /\ e = NotFound (instrument_id symbol)).
Proof.
  induction trades as [|trade trades IH];
    intros timestamp orders total w e w' Hrun.
  - discriminate Hrun.
  - cbn [OrderManager.cost_trades] in Hrun.
    unfold bind at 1 in Hrun. unfold symbols_map_getitem in Hrun.
    destruct (symbols_map w !! instrument trade) as [symbol|] eqn:Hsym.
    2:{ injection Hrun as <- <-. exists trade. split; [left|]. by left. }
    unfold bind at 1 in Hrun. unfold retrieve in Hrun.
    destruct (order_book w !! instrument_id symbol) as [price|] eqn:Hprice.
    2:{ injection Hrun as <- <-. exists trade. split; [left|]. right. eauto. }
    unfold bind at 1 in Hrun. unfold symbol_cost in Hrun.
    apply IH in Hrun as (trade' & Hin & Hwhy).
    exists trade'. split; [by right|]. exact Hwhy.
Qed.

(** The legs that count and their costs, picked from the priced legs. *)
Lemma priced_filter trades costs w :
  priced w trades costs ->
  filter (fun trade => action trade <> SELL /\ action trade <> COVER) trades
  = (filter (fun leg => action leg.1 <> SELL /\ action leg.1 <> COVER)
            (zip trades costs)).*1
  /\ priced w
       (filter (fun leg => action leg.1 <> SELL /\ action leg.1 <> COVER)
               (zip trades costs)).*1
       (filter (fun leg => action leg.1 <> SELL /\ action leg.1 <> COVER)
               (zip trades costs)).*2.
Proof.
  induction 1 as [|trade c trades costs Hleg Hrest [IHl IHp]].
  - split; [done | constructor].
  - cbn [zip zip_with]. rewrite !filter_cons. cbn [fst].
    destruct (decide (action trade <> SELL /\ action trade <> COVER)).
    + cbn. split; [by f_equal | by constructor].
    + done.
Qed.

(** X3: the exit legs of a signal add nothing to the required capital: the
    costing loop returns the same total for the signal and for the signal
    with its SELL and COVER legs taken out. *)
Theorem exit_legs_do_not_count timestamp trades costs w :
  priced w trades costs ->
  exists (orders orders' : list OrderDetails) (w1 w2 : World) (total : number),
    cost_trades timestamp trades [] py_zero w = (Ok (orders, total), w1)
    /\ cost_trades timestamp
         (filter (fun trade => action trade <> SELL /\ action trade <> COVER) trades)
         [] py_zero w
       = (Ok (orders', total), w2).
Proof.
  intros Hpriced.
  destruct (priced_filter _ _ _ Hpriced) as [Hfilter Hpriced'].
  destruct (cost_trades_priced _ _ quantity to_order cost
              _ _ timestamp [] py_zero w Hpriced) as (ods & _ & Hrun).
  destruct (cost_trades_priced _ _ quantity to_order cost
              _ _ timestamp [] py_zero w Hpriced') as (ods' & _ & Hrun').
  rewrite zip_fst_snd, list_filter_filter in Hrun'.
  rewrite <- Hfilter in Hrun'.
  rewrite (list_filter_iff _
             (fun leg : SignalInstruction * number =>
                action leg.1 <> SELL /\ action leg.1 <> COVER)) in Hrun'
    by (intros leg; tauto).
  eexists _, _, _, _, _. split; [exact Hrun | exact Hrun'].
Qed.

(** *** Outcomes of [handle_event] *)

Variable new_order_event :
  Z -> Z -> Z -> Action -> Contract -> BaseOrder -> Result OrderEvent.

Local Abbreviation set_orders :=
  (OrderManager.set_orders Contract BaseOrder new_order_event).
Local Abbreviation built := (OrderManager.built Contract BaseOrder new_order_event).
Local Abbreviation _handle_signal :=
  (OrderManager._handle_signal Contract BaseOrder quantity to_order cost
                               new_order_event).
Local Abbreviation handle_event :=
  (OrderManager.handle_event Contract BaseOrder quantity to_order cost
                             new_order_event).

(** X1: whatever the signal and the world, a call of [handle_event] ends in
    one of four ways: a rejection (one UPDATE_SYSTEM [False], nothing else);
    a full emission (one ORDER per instruction, in order, nothing else, the
    [OrderEvent] of every leg built); an exception with nothing published,
    which is the [KeyError] or the NotFound of a leg of the signal; or a
    [RuntimeError] of [_set_order] for the first leg whose [OrderEvent] the
    constructor refuses, with the ORDERs of the legs before it published and
    nothing else. *)
Theorem handle_event_four_outcomes event w :
  exists r w' published,
    handle_event event w = (r, w')
    /\ bus w' = bus w ++ published
    /\ (r = Ok tt /\ published = [rejection]
        \/ (r = Ok tt
            /\ exists (orders : list OrderDetails) (order_events : list OrderEvent),
                 Forall2 (fun trade od =>
                            order_details_of (symbols_map w) (timestamp event) trade
                            = Some od)
                         (instructions event) orders
                 /\ Forall2 (fun od o => built od = Ok o) orders order_events
                 /\ published = map order_message order_events)
        \/ (published = []
            /\ exists e trade,
                 r = Raise e
                 /\ trade ∈ instructions event
                 /\ (symbols_map w !! instrument trade = None
                     /\ e = KeyError (instrument trade)
                     \/ exists symbol,
                          symbols_map w !! instrument trade = Some symbol
                          /\ order_book w !! instrument_id symbol = None
                          /\ e = NotFound (instrument_id symbol)))
        \/ (exists (orders accepted rest : list OrderDetails) (od : OrderDetails)
                   (order_events : list OrderEvent) (prefix : string) (cause : Exn),
              Forall2 (fun trade od =>
                         order_details_of (symbols_map w) (timestamp event) trade
                         = Some od)
                      (instructions event) orders
              /\ orders = accepted ++ od :: rest
              /\ Forall2 (fun od o => built od = Ok o) accepted order_events
              /\ built od = Raise cause
              /\ r = Raise (RuntimeError prefix cause)
              /\ published = map order_message order_events)).
Proof.
  destruct (conflict_or_not Contract BaseOrder w event) as [Hconflict|Hno].
  - exists (Ok tt), (with_bus w (bus w ++ [rejection])), [rejection].
    split; [by apply handle_event_conflict|]. split; [done|]. by left.
  - rewrite (handle_event_no_conflict _ _ quantity to_order cost new_order_event
               _ _ Hno).
    destruct (priced_or_unpriced w (instructions event)) as [[costs Hpriced]|Hex].
    + destruct (handle_signal_priced _ _ quantity to_order cost new_order_event
                  (timestamp event) _ _ _ Hpriced) as (ods & Hods & Hrun).
      rewrite Hrun.
      destruct (py_le _ _).
      * destruct (built_or_refused _ _ new_order_event ods)
          as [[events Hall]
             |(accepted & od & rest & events & cause & -> & Hall & Hod)].
        -- rewrite (set_orders_built _ _ new_order_event _ _ Hall).
           eexists _, _, _. split; [reflexivity|]. split; [reflexivity|].
           right. left. split; [done|]. by exists ods, events.
        -- destruct (set_orders_refused _ _ new_order_event _ rest _ _ _ Hall Hod
                       (with_costed w (costed w ++ costs))) as [prefix ->].
           eexists _, _, _. split; [reflexivity|]. split; [reflexivity|].
           right. right. right.
           by exists (accepted ++ od :: rest), accepted, rest, od, events, prefix, cause.
      * eexists _, _, _. split; [reflexivity|]. split; [reflexivity|]. by left.
    + destruct (cost_trades_unpriced _ _ quantity to_order cost
                  _ (timestamp event) [] py_zero w Hex) as [e He].
      destruct (cost_trades (timestamp event) (instructions event) [] py_zero w)
        as [r1 w1] eqn:Hcost.
      cbn in He. subst r1.
      exists (Raise e), w1, [].
      split; [unfold OrderManager._handle_signal, bind; by rewrite Hcost|].
      split.
      { apply cost_trades_frame in Hcost as (_ & _ & _ & ->).
        by rewrite app_nil_r. }
      right. right. left. split; [done|].
      apply cost_trades_raises in Hcost as (trade & Hin & Hwhy).
      by exists e, trade.
Qed.

(** X2: a signal without instructions never conflicts and never raises; it
    publishes nothing when [0 <= capital] and one UPDATE_SYSTEM [False]
    otherwise, and leaves the rest of the world alone. *)
Theorem empty_signal_outcome timestamp w :
  handle_event {| timestamp := timestamp; instructions := [] |} w
  = (Ok tt,
     if py_le py_zero (capital (portfolio_server w))
     then w
     else with_bus w (bus w ++ [rejection])).
Proof.
  unfold OrderManager.handle_event, OrderManager._handle_signal, bind, gets. cbn.
  destruct (py_le _ _); [|done].
  by destruct w.
Qed.

(** X4: when [<=] on amounts is transitive, raising the available capital
    never turns an admitted signal into a rejected one: a signal rejected for
    lack of capital in the richer world is rejected in the poorer one too. *)
Theorem more_capital_never_rejects event w costs available :
  (forall a b c : number,
      py_le a b = true -> py_le b c = true -> py_le a c = true) ->
  no_conflict w event ->
  priced w (instructions event) costs ->
  py_le (capital (portfolio_server w)) available = true ->
  bus (handle_event event (with_capital w available)).2 = bus w ++ [rejection] ->
  bus (handle_event event w).2 = bus w ++ [rejection].
Proof.
  intros Htrans Hno Hpriced Hmore Hrejected.
  assert (no_conflict (with_capital w available) event) as Hno' by exact Hno.
  assert (priced (with_capital w available) (instructions event) costs) as Hpriced'
    by exact Hpriced.
  rewrite (handle_event_no_conflict _ _ quantity to_order cost new_order_event
             _ _ Hno') in Hrejected.
  rewrite (handle_event_no_conflict _ _ quantity to_order cost new_order_event
             _ _ Hno).
  destruct (handle_signal_priced _ _ quantity to_order cost new_order_event
              (timestamp event) _ _ _ Hpriced') as (ods' & _ & Hrun').
  destruct (handle_signal_priced _ _ quantity to_order cost new_order_event
              (timestamp event) _ _ _ Hpriced) as (ods & _ & Hrun).
  rewrite Hrun' in Hrejected. rewrite Hrun.
  cbn [portfolio_server capital OrderManager.with_capital] in Hrejected.
  destruct (py_le (spec_total_capital_required (zip (instructions event) costs))
                  available) eqn:Hrich.
  - exfalso.
    destruct (set_orders ods' _) as [r1 w1] eqn:Hset.
    apply set_orders_publishes_orders in Hset as (events & -> & _).
    cbn in Hrejected. apply app_inv_head in Hrejected.
    destruct events as [|o [|? ?]]; cbn in Hrejected;
      unfold order_message, rejection in Hrejected; discriminate Hrejected.
  - destruct (py_le (spec_total_capital_required (zip (instructions event) costs))
                    (capital (portfolio_server w))) eqn:Hpoor; [|done].
    by rewrite (Htrans _ _ _ Hpoor Hmore) in Hrich.
Qed.

End Engine.

Lemma Qle_bool_trans (a b c : Q) :
  Qle_bool a b = true -> Qle_bool b c = true -> Qle_bool a c = true.
Proof. rewrite !Qle_bool_iff. apply Qle_trans. Qed.

Lemma exit_legs_do_not_count_witness :
  exists orders orders' w1 w2 total,
    cost_trades (H := Q_PyNum) string Q demo_quantity demo_to_order demo_cost
      1712850060000000000 [buy_a; sell_b] [] 0%Q (demo_world 1000%Q ∅)
    = (Ok (orders, total), w1)
    /\ cost_trades (H := Q_PyNum) string Q demo_quantity demo_to_order demo_cost
         1712850060000000000
         (filter (fun trade => action trade <> SELL /\ action trade <> COVER)
                 [buy_a; sell_b])
         [] 0%Q (demo_world 1000%Q ∅)
       = (Ok (orders', total), w2).
Proof.
  apply (exit_legs_do_not_count (H := Q_PyNum) string Q demo_quantity
           demo_to_order demo_cost 1712850060000000000 [buy_a; sell_b]
           [1000%Q; 800%Q] (demo_world 1000%Q ∅)).
  apply demo_priced_buy_sell.
Defined.

Lemma more_capital_never_rejects_witness :
  bus (demo_handle_event (signal_of [buy_a; sell_b]) (demo_world 500%Q ∅)).2
  = [] ++ [rejection].
Proof.
  apply (more_capital_never_rejects (H := Q_PyNum) string Q demo_quantity
           demo_to_order demo_cost demo_new_order_event (signal_of [buy_a; sell_b])
           (demo_world 500%Q ∅) [1000%Q; 800%Q] 900%Q).
  - exact Qle_bool_trans.
  - apply demo_no_conflict.
  - apply demo_priced_buy_sell.
  - reflexivity.
  - vm_compute. reflexivity.
Defined.

End OrderManagerMore.

(** ** More on the worker loop *)

Module AdapterMore.
Import OrderManager.

Section Engine.
Context `{PyNum}.
Variables Contract BaseOrder : Type.
Variable quantity : BaseOrder -> number.
Variable to_order : SignalInstruction -> BaseOrder.
Variable cost : Symbol Contract -> number -> number -> number.
Variable new_order_event :
  Z -> Z -> Z -> Action -> Contract -> BaseOrder
  -> Result (OrderManager.OrderEvent Contract BaseOrder).

Local Abbreviation Adapter := (OrderManager.Adapter Contract BaseOrder).
Local Abbreviation World := (OrderManager.World Contract BaseOrder).
Local Abbreviation handle_event :=
  (OrderManager.handle_event Contract BaseOrder quantity to_order cost
                             new_order_event).
Local Abbreviation step :=
  (OrderManager.step Contract BaseOrder quantity to_order cost new_order_event).
Local Abbreviation transition :=
  (OrderManager.transition Contract BaseOrder quantity to_order cost
                           new_order_event).
Local Abbreviation run :=
  (OrderManager.run Contract BaseOrder quantity to_order cost new_order_event).
Local Abbreviation handle_all :=
  (OrderManager.handle_all Contract BaseOrder quantity to_order cost
                           new_order_event).

(** An invariant that holds at the start and that every transition keeps
    holds after every schedule. *)
Lemma run_invariant (P : Adapter -> Prop) :
  (forall a l, P a -> P (transition a l)) ->
  forall schedule a, P a -> P (run schedule a).
Proof.
  intros Hkeep schedule. induction schedule as [|l schedule IH]; intros a Ha.
  - exact Ha.
  - cbn [OrderManager.run fold_left]. apply IH, Hkeep, Ha.
Qed.

(** What one scheduling of the thread does, by program point. *)
Lemma step_cases (a : Adapter) :
  match pc a with
  | AtStart =>
      pc (transition a ThreadStep) = LoopHead
      /\ running (transition a ThreadStep) = true
      /\ signal_queue (transition a ThreadStep) = signal_queue a
      /\ world (transition a ThreadStep) = world a
      /\ cleanups (transition a ThreadStep) = cleanups a
  | LoopHead =>
      signal_queue (transition a ThreadStep) = signal_queue a
      /\ world (transition a ThreadStep) = world a
      /\ running (transition a ThreadStep) = running a
      /\ (if shutdown_event a
          then pc (transition a ThreadStep) = Finished
               /\ cleanups (transition a ThreadStep) = S (cleanups a)
          else pc (transition a ThreadStep) = InGet
               /\ cleanups (transition a ThreadStep) = cleanups a)
  | InGet =>
      running (transition a ThreadStep) = running a
      /\ cleanups (transition a ThreadStep) = cleanups a
      /\ match signal_queue a with
         | [] => transition a ThreadStep = a
         | event :: rest =>
             signal_queue (transition a ThreadStep) = rest
             /\ world (transition a ThreadStep) = (handle_event event (world a)).2
             /\ pc (transition a ThreadStep)
                = match (handle_event event (world a)).1 with
                  | Ok _ => LoopHead
                  | Raise e => Crashed e
                  end
         end
  | Finished | Crashed _ => transition a ThreadStep = a
  end.
Proof.
  unfold OrderManager.transition, OrderManager.step.
  destruct (pc a) eqn:Hpc.
  - done.
  - by destruct (shutdown_event a).
  - destruct (signal_queue a) as [|event rest]; [done|].
    by destruct (handle_event event (world a)) as [[] ?].
  - done.
  - done.
Qed.

(** X5: [cleanup] runs at most once, and it has run exactly when the thread
    left the loop through the shutdown test: after any schedule from a new
    adapter the number of cleanups is 1 if the thread is [Finished] and 0
    otherwise. *)
Theorem cleanup_at_most_once (w : World) (schedule : list Label) :
  (cleanups (run schedule (new_adapter w)) <= 1)%nat
  /\ (cleanups (run schedule (new_adapter w)) = 1%nat
      <-> pc (run schedule (new_adapter w)) = Finished).
Proof.
  assert (match pc (run schedule (new_adapter w)) with
          | Finished => cleanups (run schedule (new_adapter w)) = 1%nat
          | _ => cleanups (run schedule (new_adapter w)) = 0%nat
          end) as Hinv.
  { apply (run_invariant
             (fun a => match pc a with
                       | Finished => cleanups a = 1%nat
                       | _ => cleanups a = 0%nat
                       end)); [|done].
    intros a l Ha. destruct l; try exact Ha.
    pose proof (step_cases a) as Hstep.
    destruct (pc a) eqn:Hpc.
    - destruct Hstep as (-> & _ & _ & _ & ->). done.
    - destruct Hstep as (_ & _ & _ & Hstep).
      destruct (shutdown_event a); destruct Hstep as [-> ->]; congruence.
    - destruct Hstep as (_ & Hcleanups & Hstep).
      destruct (signal_queue a) as [|event rest].
      + rewrite Hstep, Hpc. done.
      + destruct Hstep as (_ & _ & ->). rewrite Hcleanups.
        by destruct (handle_event _ _).1.
    - rewrite Hstep, Hpc. done.
    - rewrite Hstep, Hpc. done. }
  destruct (pc (run schedule (new_adapter w))); rewrite Hinv;
    split; try lia; split; try done; try lia.
Qed.

(** X6: no event is consumed before [running] is set: after any schedule from
    a new adapter, either the thread is still at the start of [process], with
    [running] clear and the world untouched, or [running] is set. *)
Theorem running_set_before_first_event (w : World) (schedule : list Label) :
  (running (run schedule (new_adapter w)) = false
   /\ pc (run schedule (new_adapter w)) = AtStart
   /\ world (run schedule (new_adapter w)) = w)
  \/ (running (run schedule (new_adapter w)) = true
      /\ pc (run schedule (new_adapter w)) <> AtStart).
Proof.
  apply (run_invariant
           (fun a => (running a = false /\ pc a = AtStart /\ world a = w)
                     \/ (running a = true /\ pc a <> AtStart)));
    [|by left].
  intros a l Ha. destruct l; try exact Ha.
  pose proof (step_cases a) as Hstep.
  destruct Ha as [(Hrun & Hpc & Hw)|[Hrun Hpc]].
  - rewrite Hpc in Hstep. destruct Hstep as (-> & -> & _). by right.
  - right. destruct (pc a) eqn:Hpc'; [done| | | |].
    + destruct Hstep as (_ & _ & -> & Hstep).
      destruct (shutdown_event a); destruct Hstep as [-> _]; done.
    + destruct Hstep as (-> & _ & Hstep).
      destruct (signal_queue a) as [|event rest].
      * rewrite Hstep, Hpc'. done.
      * destruct Hstep as (_ & _ & ->). by destruct (handle_event _ _).1.
    + rewrite Hstep, Hpc'. done.
    + rewrite Hstep, Hpc'. done.
Qed.

Lemma puts_cons (l : Label) (schedule : list Label) :
  puts (l :: schedule)
  = match l with Put event => event :: puts schedule | _ => puts schedule end.
Proof. by destruct l. Qed.

Lemma transition_put (a : Adapter) (event : SignalEvent) :
  signal_queue (transition a (Put event)) = signal_queue a ++ [event]
  /\ world (transition a (Put event)) = world a
  /\ pc (transition a (Put event)) = pc a.
Proof. done. Qed.

Lemma transition_shutdown (a : Adapter) (l : Label) :
  shutdown_event a = true -> shutdown_event (transition a l) = true.
Proof.
  intros Hshutdown. destruct l; try done.
  unfold OrderManager.transition, OrderManager.step.
  destruct (pc a); try done.
  - by rewrite Hshutdown.
  - destruct (signal_queue a) as [|event rest]; [done|].
    by destruct (handle_event event (world a)).
Qed.

(** X7: events are handled once each and in the order they were put: after
    any schedule, some prefix of the events queued so far has been taken off
    the queue, the rest is still queued in order, and the world is the one
    reached by handling that prefix event by event. *)
Theorem events_handled_in_order (schedule : list Label) :
  forall a : Adapter,
    exists k : nat,
      (k <= length (signal_queue a ++ puts schedule))%nat
      /\ signal_queue (run schedule a) = drop k (signal_queue a ++ puts schedule)
      /\ world (run schedule a)
         = handle_all (take k (signal_queue a ++ puts schedule)) (world a).
Proof.
  induction schedule as [|l schedule IH]; intros a.
  - exists 0%nat. cbn. rewrite app_nil_r. split; [lia|done].
  - cbn [OrderManager.run fold_left].
    destruct (IH (transition a l)) as (k & Hk & Hqueue & Hworld).
    unfold OrderManager.run in Hqueue, Hworld.
    destruct l as [|event| |].
    + change (puts (ThreadStep :: schedule)) with (puts schedule).
      pose proof (step_cases a) as Hstep.
      destruct (pc a) eqn:Hpc.
      * destruct Hstep as (_ & _ & Hq & Hw & _).
        rewrite Hq, Hw in *. by exists k.
      * destruct Hstep as (Hq & Hw & _).
        rewrite Hq, Hw in *. by exists k.
      * destruct Hstep as (_ & _ & Hstep).
        destruct (signal_queue a) as [|event rest] eqn:Hq0.
        -- rewrite Hstep in *. rewrite Hq0 in *. by exists k.
        -- destruct Hstep as (Hq & Hw & _).
           rewrite Hq, Hw in *. exists (S k). cbn. split; [lia|done].
      * rewrite Hstep in *. by exists k.
      * rewrite Hstep in *. by exists k.
    + change (puts (Put event :: schedule)) with (event :: puts schedule).
      exists k. cbn in Hk, Hqueue, Hworld.
      rewrite <- app_assoc in Hk, Hqueue, Hworld. done.
    + by exists k.
    + by exists k.
Qed.

(** With shutdown requested and the thread outside [get()], no event is
    consumed any more. *)
Lemma no_event_after_shutdown (schedule : list Label) :
  forall a : Adapter,
    shutdown_event a = true ->
    pc a <> InGet ->
    length (signal_queue (run schedule a))
    = (length (signal_queue a) + length (puts schedule))%nat.
Proof.
  induction schedule as [|l schedule IH]; intros a Hshutdown Hpc.
  - cbn. lia.
  - cbn [OrderManager.run fold_left].
    fold (run schedule (transition a l)).
    rewrite IH; [|by apply transition_shutdown|].
    + destruct l as [|event| |].
      * change (puts (ThreadStep :: schedule)) with (puts schedule).
        pose proof (step_cases a) as Hstep.
        destruct (pc a); [| |done| |].
        -- destruct Hstep as (_ & _ & Hq & _). by rewrite Hq.
        -- destruct Hstep as (Hq & _). by rewrite Hq.
        -- by rewrite Hstep.
        -- by rewrite Hstep.
      * rewrite puts_cons. destruct (transition_put a event) as (-> & _).
        rewrite length_app. cbn [length]. lia.
      * done.
      * done.
    + destruct l as [|event| |]; try done.
      pose proof (step_cases a) as Hstep.
      destruct (pc a) eqn:Hpc'; [| |done| |].
      * by destruct Hstep as (-> & _).
      * destruct Hstep as (_ & _ & _ & Hstep). rewrite Hshutdown in Hstep.
        by destruct Hstep as (-> & _).
      * by rewrite Hstep, Hpc'.
      * by rewrite Hstep, Hpc'.
Qed.

(** X8: once shutdown is requested, the thread consumes at most one more
    event (the one that wakes it from [get()]), whatever is put afterwards. *)
Theorem at_most_one_event_after_shutdown (schedule : list Label) :
  forall a : Adapter,
    shutdown_event a = true ->
    (length (signal_queue a) + length (puts schedule)
     <= length (signal_queue (run schedule a)) + 1)%nat.
Proof.
  induction schedule as [|l schedule IH]; intros a Hshutdown.
  - cbn. lia.
  - assert (pc a <> InGet
            -> (length (signal_queue a) + length (puts (l :: schedule))
                <= length (signal_queue (run (l :: schedule) a)) + 1)%nat) as Hout.
    { intros Hpc. rewrite no_event_after_shutdown by done. lia. }
    destruct (pc a) eqn:Hpc; try (apply Hout; congruence).
    cbn [OrderManager.run fold_left]. fold (run schedule (transition a l)).
    specialize (IH (transition a l) (transition_shutdown a l Hshutdown)).
    rewrite puts_cons.
    destruct l as [|event| |]; [| |exact IH|exact IH].
    + pose proof (step_cases a) as Hstep. rewrite Hpc in Hstep.
      destruct Hstep as (_ & _ & Hstep).
      destruct (signal_queue a) as [|event rest] eqn:Hq.
      * cbn [length]. lia.
      * destruct Hstep as (Hrest & _ & Hpc').
        rewrite no_event_after_shutdown;
          [rewrite Hrest; cbn [length]; lia | by apply transition_shutdown |].
        rewrite Hpc'. by destruct (handle_event _ _).1.
    + destruct (transition_put a event) as (Hq & _).
      rewrite Hq, length_app in IH. cbn [length] in IH |- *. lia.
Qed.

(** X9: an exception of [handle_event] stops the adapter for good: from then
    on the world is frozen and every event put on the queue stays there. *)
Theorem crashed_adapter_handles_nothing (schedule : list Label) :
  forall (a : Adapter) (e : Exn),
    pc a = Crashed e ->
    pc (run schedule a) = Crashed e
    /\ world (run schedule a) = world a
    /\ signal_queue (run schedule a) = signal_queue a ++ puts schedule.
Proof.
  induction schedule as [|l schedule IH]; intros a e Hpc.
  - cbn. by rewrite app_nil_r.
  - cbn [OrderManager.run fold_left]. fold (run schedule (transition a l)).
    rewrite puts_cons.
    destruct l as [|event| |].
    + pose proof (step_cases a) as Hstep. rewrite Hpc in Hstep.
      rewrite Hstep. by apply IH.
    + destruct (transition_put a event) as (Hq & Hw & Hpc').
      destruct (IH (transition a (Put event)) e) as (-> & -> & ->);
        [by rewrite Hpc'|].
      rewrite Hq, Hw, <- app_assoc. done.
    + by apply (IH (transition a SetShutdown)).
    + by apply IH.
Qed.

End Engine.

Lemma at_most_one_event_after_shutdown_witness :
  (length (signal_queue
             (demo_run [ThreadStep; ThreadStep; SetShutdown]
                       (new_adapter (demo_world 1000%Q ∅))))
   + length (puts [Put (signal_of [buy_a]); ThreadStep;
                   Put (signal_of [sell_b]); ThreadStep; ThreadStep])
   <= length (signal_queue
                (demo_run [Put (signal_of [buy_a]); ThreadStep;
                           Put (signal_of [sell_b]); ThreadStep; ThreadStep]
                   (demo_run [ThreadStep; ThreadStep; SetShutdown]
                             (new_adapter (demo_world 1000%Q ∅))))) + 1)%nat.
Proof.
  apply (at_most_one_event_after_shutdown (H := Q_PyNum) string Q demo_quantity
           demo_to_order demo_cost demo_new_order_event
           [Put (signal_of [buy_a]); ThreadStep;
            Put (signal_of [sell_b]); ThreadStep; ThreadStep]
           (demo_run [ThreadStep; ThreadStep; SetShutdown]
                     (new_adapter (demo_world 1000%Q ∅)))).
  reflexivity.
Defined.

Lemma crashed_adapter_handles_nothing_witness :
  pc (demo_run [Put (signal_of [buy_a]); ThreadStep; Tick; ThreadStep]
        (demo_run [ThreadStep; Put (signal_of [buy_unknown]); ThreadStep; ThreadStep]
                  (new_adapter (demo_world 1000%Q ∅))))
  = Crashed (KeyError 7)
  /\ world (demo_run [Put (signal_of [buy_a]); ThreadStep; Tick; ThreadStep]
              (demo_run [ThreadStep; Put (signal_of [buy_unknown]);
                         ThreadStep; ThreadStep]
                        (new_adapter (demo_world 1000%Q ∅))))
     = world (demo_run [ThreadStep; Put (signal_of [buy_unknown]);
                        ThreadStep; ThreadStep]
                       (new_adapter (demo_world 1000%Q ∅)))
  /\ signal_queue
       (demo_run [Put (signal_of [buy_a]); ThreadStep; Tick; ThreadStep]
          (demo_run [ThreadStep; Put (signal_of [buy_unknown]);
                     ThreadStep; ThreadStep]
                    (new_adapter (demo_world 1000%Q ∅))))
     = signal_queue
         (demo_run [ThreadStep; Put (signal_of [buy_unknown]);
                    ThreadStep; ThreadStep]
                   (new_adapter (demo_world 1000%Q ∅)))
       ++ puts [Put (signal_of [buy_a]); ThreadStep; Tick; ThreadStep].
Proof.
  apply (crashed_adapter_handles_nothing (H := Q_PyNum) string Q demo_quantity
           demo_to_order demo_cost demo_new_order_event
           [Put (signal_of [buy_a]); ThreadStep; Tick; ThreadStep]
           (demo_run [ThreadStep; Put (signal_of [buy_unknown]);
                      ThreadStep; ThreadStep]
                     (new_adapter (demo_world 1000%Q ∅)))
           (KeyError 7)).
  vm_compute. reflexivity.
Defined.

End AdapterMore.

(** ** More on the core engine *)

Module CoreEngineMore.
Import CoreEngine.

(** X10: [stop] returns normally exactly when the five adapters are
    registered and the save of the performance manager returns; it has then
    saved first and requested the shutdown of each of the five adapters once,
    the strategy last. *)
Theorem stop_returns_iff_complete (save : Result unit) (self : gmap string PyVal)
    (keys : list string) :
  self !! "adapters" = Some (VDict keys) ->
  ((stop save self).1 = Stopped
   <-> save = Ok tt /\ Forall (fun name => name ∈ keys) adapter_names)
  /\ ((stop save self).1 = Stopped ->
      (stop save self).2
      = [Save "performance_manager"; ShutdownRequested "order_book";
         ShutdownRequested "order_manager"; ShutdownRequested "portfolio_server";
         ShutdownRequested "performance_manager"; ShutdownRequested "strategy"]).
Proof.
  intros Hadapters. unfold stop, getattr, adapter_names. rewrite Hadapters.
  rewrite !Forall_cons, Forall_nil.
  destruct (decide ("performance_manager" ∈ keys)) as [Hpm|Hpm];
    [rewrite (bool_decide_eq_true_2 _ Hpm)
    |rewrite (bool_decide_eq_false_2 _ Hpm)]; cbn [negb];
    [|split; [split; [done|tauto]|done]].
  destruct save as [[]|e]; [|split; [split; [done|intros [[=] _]]|done]].
  destruct (decide ("order_book" ∈ keys)) as [Hob|Hob];
    [rewrite (bool_decide_eq_true_2 _ Hob)
    |rewrite (bool_decide_eq_false_2 _ Hob)]; cbn [negb];
    [|split; [split; [done|tauto]|done]].
  destruct (decide ("order_manager" ∈ keys)) as [Hom|Hom];
    [rewrite (bool_decide_eq_true_2 _ Hom)
    |rewrite (bool_decide_eq_false_2 _ Hom)]; cbn [negb];
    [|split; [split; [done|tauto]|done]].
  destruct (decide ("portfolio_server" ∈ keys)) as [Hps|Hps];
    [rewrite (bool_decide_eq_true_2 _ Hps)
    |rewrite (bool_decide_eq_false_2 _ Hps)]; cbn [negb];
    [|split; [split; [done|tauto]|done]].
  destruct (decide ("strategy" ∈ keys)) as [Hst|Hst];
    [rewrite (bool_decide_eq_true_2 _ Hst)
    |rewrite (bool_decide_eq_false_2 _ Hst)]; cbn [negb];
    [|split; [split; [done|tauto]|done]].
  split; [split; [tauto|done]|done].
Qed.

(** X11: the two ways [stop] leaves adapters running.  If the save raises,
    no shutdown is requested at all.  If the strategy was never set while the
    four adapters of [initialize] are registered, [stop] has saved and
    requested the shutdown of those four when it raises [KeyError] for
    ['strategy']. *)
Theorem stop_partial (self : gmap string PyVal) (keys : list string) :
  self !! "adapters" = Some (VDict keys) ->
  Forall (fun name => name ∈ keys)
         ["order_book"; "portfolio_server"; "order_manager"; "performance_manager"] ->
  (forall e, stop (Raise e) self = (StopRaised e, []))
  /\ ("strategy" ∉ keys ->
      stop (Ok tt) self
      = (MissingAdapter "strategy",
         [Save "performance_manager"; ShutdownRequested "order_book";
          ShutdownRequested "order_manager"; ShutdownRequested "portfolio_server";
          ShutdownRequested "performance_manager"])).
Proof.
  intros Hadapters Hkeys.
  rewrite !Forall_cons, Forall_nil in Hkeys.
  destruct Hkeys as (Hob & Hps & Hom & Hpm & _).
  unfold stop, getattr. rewrite Hadapters.
  rewrite (bool_decide_eq_true_2 _ Hpm). cbn [negb].
  split; [done|]. intros Hst.
  rewrite (bool_decide_eq_true_2 _ Hob), (bool_decide_eq_true_2 _ Hom),
    (bool_decide_eq_true_2 _ Hps), (bool_decide_eq_false_2 _ Hst).
  done.
Qed.

Lemma initialized_adapters symbols_map message_bus mode params output_dir :
  initialize (__init__ symbols_map message_bus mode params output_dir) !! "adapters"
  = Some (VDict ["order_book"; "portfolio_server"; "order_manager";
                 "performance_manager"]).
Proof. vm_compute. reflexivity. Qed.

Lemma demo_engine_adapters :
  demo_engine !! "adapters" = Some (VDict adapter_names).
Proof. vm_compute. reflexivity. Qed.

Lemma stop_returns_iff_complete_witness :
  ((stop (Ok tt) demo_engine).1 = Stopped
   <-> Ok tt = Ok tt /\ Forall (fun name => name ∈ adapter_names) adapter_names)
  /\ ((stop (Ok tt) demo_engine).1 = Stopped ->
      (stop (Ok tt) demo_engine).2
      = [Save "performance_manager"; ShutdownRequested "order_book";
         ShutdownRequested "order_manager"; ShutdownRequested "portfolio_server";
         ShutdownRequested "performance_manager"; ShutdownRequested "strategy"]).
Proof.
  apply (stop_returns_iff_complete (Ok tt) demo_engine adapter_names).
  apply demo_engine_adapters.
Defined.

Lemma stop_partial_witness :
  (forall e,
     stop (Raise e)
          (initialize (__init__ (VOpaque "symbols_map") (VOpaque "message_bus")
                                (VOpaque "BACKTEST") (VOpaque "params")
                                (VOpaque "output/")))
     = (StopRaised e, []))
  /\ ("strategy" ∉ ["order_book"; "portfolio_server"; "order_manager";
                    "performance_manager"] ->
      stop (Ok tt)
           (initialize (__init__ (VOpaque "symbols_map") (VOpaque "message_bus")
                                 (VOpaque "BACKTEST") (VOpaque "params")
                                 (VOpaque "output/")))
      = (MissingAdapter "strategy",
         [Save "performance_manager"; ShutdownRequested "order_book";
          ShutdownRequested "order_manager"; ShutdownRequested "portfolio_server";
          ShutdownRequested "performance_manager"])).
Proof.
  apply (stop_partial _ ["order_book"; "portfolio_server"; "order_manager";
                         "performance_manager"]).
  - apply initialized_adapters.
  - repeat constructor.
Defined.

End CoreEngineMore.

(** ** The helpers of the performance manager *)

Module PerformanceUtilsFacts.
Import Py PerformanceUtils.

(** Induction on a value, with the values inside lists and dicts. *)
Lemma pyval_induction (P : pyval -> Prop) :
  P PNone ->
  (forall b, P (PBool b)) ->
  (forall z, P (PInt z)) ->
  (forall f, P (PFloat f)) ->
  (forall s, P (PStr s)) ->
  (forall l, Forall P l -> P (PList l)) ->
  (forall d, Forall (fun item => P item.2) d -> P (PDict d)) ->
  forall v, P v.
Proof.
  intros HNone HBool HInt HFloat HStr HList HDict.
  fix IH 1. intros [|b|z|f|s|l|d].
  - exact HNone.
  - apply HBool.
  - apply HInt.
  - apply HFloat.
  - apply HStr.
  - apply HList. revert l. fix IHl 1. intros [|v l].
    + constructor.
    + constructor; [apply IH | apply IHl].
  - apply HDict. revert d. fix IHd 1. intros [|[key v] d].
    + constructor.
    + constructor; [apply IH | apply IHd].
Qed.

Lemma replace_value_dict (d : list (string * pyval)) :
  replace_value (PDict d) = PDict (replace_nan_inf_in_dict d).
Proof.
  cbn [replace_value]. unfold replace_nan_inf_in_dict. f_equal.
  apply map_ext. by intros [key value].
Qed.

Lemma finite_value_dict (d : list (string * pyval)) :
  finite_value (PDict d) = finite_dict d.
Proof.
  cbn [finite_value]. unfold finite_dict.
  induction d as [|[key value] d IH]; [done|]. cbn. by rewrite IH.
Qed.

Lemma finite_dict_forall (d : list (string * pyval)) :
  finite_dict d = true <-> Forall (fun item => finite_value item.2 = true) d.
Proof.
  unfold finite_dict. rewrite forallb_forall, Forall_forall.
  split; intros Hall item Hin; apply Hall; by apply list_elem_of_In.
Qed.

Lemma replace_value_finite (v : pyval) : finite_value (replace_value v) = true.
Proof.
  induction v as [|b|z|f|s|l _|d IH] using pyval_induction; try done.
  - cbn [replace_value]. by destruct f.
  - rewrite replace_value_dict, finite_value_dict. apply finite_dict_forall.
    unfold replace_nan_inf_in_dict. rewrite Forall_fmap.
    eapply Forall_impl; [exact IH|]. by intros [key value].
Qed.

Lemma replace_value_fixes_finite (v : pyval) :
  finite_value v = true -> replace_value v = v.
Proof.
  induction v as [|b|z|f|s|l _|d IH] using pyval_induction; try done.
  - by destruct f.
  - rewrite finite_value_dict, replace_value_dict. intros Hfinite. f_equal.
    apply finite_dict_forall in Hfinite.
    unfold replace_nan_inf_in_dict.
    induction d as [|[key value] d IHd]; [done|].
    inversion IH as [|? ? Hvalue Hrest]; subst.
    inversion Hfinite as [|? ? Hfv Hfd]; subst.
    cbn in Hvalue, Hfv |- *. rewrite (Hvalue Hfv). f_equal. by apply IHd.
Qed.

(** X12: when [replace_nan_inf_in_dict] returns, the dict has the keys it had,
    in the same order; no NaN and no infinite float is left as a value of the
    dict or of a dict reached from it through dict values only; and a value
    that is a list is returned as it was, whatever it holds: lists are not
    looked into, so a NaN in a list, or in a dict inside a list, is still
    there. *)
Theorem replace_leaves_finite_dict (d : list (string * pyval)) :
  finite_dict (replace_nan_inf_in_dict d) = true
  /\ (replace_nan_inf_in_dict d).*1 = d.*1
  /\ Forall2 (fun item item' => forall l, item.2 = PList l -> item' = item)
             d (replace_nan_inf_in_dict d).
Proof.
  split; [|split].
  - apply finite_dict_forall. unfold replace_nan_inf_in_dict.
    rewrite Forall_fmap. apply Forall_forall. intros item _.
    apply replace_value_finite.
  - unfold replace_nan_inf_in_dict. rewrite <- list_fmap_compose.
    by apply list_fmap_ext.
  - unfold replace_nan_inf_in_dict. apply Forall2_fmap_r, Forall_Forall2_diag.
    apply Forall_forall. intros [key value] _ l. cbn. by intros ->.
Qed.

(** A NaN in a dict inside a list is out of reach: the call leaves it where
    it is, and [finite_dict], which does not look into lists either, holds of
    the result all the same. *)
Example replace_skips_dict_in_list :
  replace_nan_inf_in_dict
    [("trades", PList [PDict [("pnl", PFloat NaN)]])]
  = [("trades", PList [PDict [("pnl", PFloat NaN)]])]
  /\ finite_dict [("trades", PList [PDict [("pnl", PFloat NaN)]])] = true.
Proof. split; reflexivity. Qed.

(** A dict whose values hold no NaN and no infinity is left as it is. *)
Lemma replace_fixes_finite_items (d : list (string * pyval)) :
  Forall (fun item => finite_value item.2 = true) d ->
  replace_nan_inf_in_dict d = d.
Proof.
  unfold replace_nan_inf_in_dict.
  induction 1 as [|[key value] d Hvalue _ IH]; [done|].
  cbn in Hvalue |- *. by rewrite (replace_value_fixes_finite _ Hvalue), IH.
Qed.

(** X14: a dict that holds no NaN and no infinity, at any depth of nested
    dicts, is left exactly as it is. *)
Theorem replace_fixes_finite_dict (d : list (string * pyval)) :
  finite_dict d = true -> replace_nan_inf_in_dict d = d.
Proof.
  intros Hfinite. by apply replace_fixes_finite_items, finite_dict_forall.
Qed.

(** X13: calling [replace_nan_inf_in_dict] a second time changes nothing. *)
Theorem replace_idempotent (d : list (string * pyval)) :
  replace_nan_inf_in_dict (replace_nan_inf_in_dict d) = replace_nan_inf_in_dict d.
Proof.
  apply replace_fixes_finite_items.
  unfold replace_nan_inf_in_dict. rewrite Forall_fmap.
  apply Forall_forall. intros item _. apply replace_value_finite.
Qed.

Lemma replace_fixes_finite_dict_witness :
  replace_nan_inf_in_dict
    [("sharpe_ratio", PFloat (Finite 1.5%Q));
     ("by_symbol", PDict [("HE", PFloat (Finite 0)); ("ZC", PInt 3)]);
     ("returns", PList [PFloat NaN])]
  = [("sharpe_ratio", PFloat (Finite 1.5%Q));
     ("by_symbol", PDict [("HE", PFloat (Finite 0)); ("ZC", PInt 3)]);
     ("returns", PList [PFloat NaN])].
Proof.
  apply (replace_fixes_finite_dict
           [("sharpe_ratio", PFloat (Finite 1.5%Q));
            ("by_symbol", PDict [("HE", PFloat (Finite 0)); ("ZC", PInt 3)]);
            ("returns", PList [PFloat NaN])]).
  reflexivity.
Defined.

(** A NaN two dicts deep is replaced, an infinity too; a NaN inside a list is
    not. *)
Example replace_nested :
  replace_nan_inf_in_dict
    [("sortino_ratio", PFloat NaN);
     ("by_symbol", PDict [("HE", PDict [("profit_factor", PFloat PosInf)])]);
     ("returns", PList [PFloat NaN])]
  = [("sortino_ratio", PFloat (Finite 0));
     ("by_symbol", PDict [("HE", PDict [("profit_factor", PFloat (Finite 0))])]);
     ("returns", PList [PFloat NaN])].
Proof. reflexivity. Qed.

(** X15: backtest names are not unique per instant: the fields of the date
    are written without padding, so the twelfth of January and the second of
    November of the same year give the same name at the same time of day. *)
Theorem backtest_name_collision (strategy_name : string) (y h mi s : N) :
  generate_backtest_name strategy_name
    {| year := y; month := 1; day := 12; hour := h; minute := mi; second := s |}
  = generate_backtest_name strategy_name
      {| year := y; month := 11; day := 2; hour := h; minute := mi; second := s |}.
Proof. reflexivity. Qed.

(** The example of the docstring, and the same strategy nine months earlier in
    the year: twelve characters after the dash instead of fourteen. *)
Example backtest_name_examples :
  generate_backtest_name "MyStrategy"
    {| year := 2024; month := 12; day := 18; hour := 10; minute := 30; second := 45 |}
  = "MyStrategy-20241218103045"
  /\ generate_backtest_name "MyStrategy"
       {| year := 2024; month := 3; day := 8; hour := 10; minute := 30; second := 45 |}
     = "MyStrategy-202438103045".
Proof. split; vm_compute; reflexivity. Qed.

End PerformanceUtilsFacts.

(** ** Validation of trades and positions *)

Module ValidationFacts.
Import Py.

(** Walks down a chain of [if negb b then Raise _ else ...]. *)
Ltac next_check :=
  match goal with
  | |- context [if negb ?b then _ else _] => destruct b eqn:?; cbn [negb andb]
  end.

(** The same for the checks written [if b then Raise _ else ...]. *)
Ltac next_bound :=
  match goal with
  | |- context [if ?b then Raise _ else _] => destruct b eqn:?
  end.

(** The checks of [Trade.__post_init__], walked in source order. *)
Lemma trade_post_init_checks (t : Trade.Trade) :
  Trade.__post_init__ t = Ok tt
  <-> Trade.well_typed t = true
      /\ str_in (Trade.action t) ["BUY"; "SELL"; "LONG"; "SHORT"; "COVER"] = true
      /\ le_zero (Trade.avg_price t) = false.
Proof.
  unfold Trade.__post_init__, Trade.well_typed.
  repeat (next_check; [|split; [discriminate | intros (? & ? & ?); discriminate]]).
  next_bound; split; try done. intros (_ & _ & ?). discriminate.
Qed.

(** X16: [Trade(...)] is accepted exactly when the four identifiers are ints,
    the five amounts are numbers, the action is one of the five action
    strings and [avg_price <= 0] is false; every constructed [Trade] has
    these properties. *)
Theorem trade_accepted_iff (t : Trade.Trade) :
  Trade.__post_init__ t = Ok tt
  <-> Trade.well_typed t = true
      /\ str_in (Trade.action t) ["BUY"; "SELL"; "LONG"; "SHORT"; "COVER"] = true
      /\ le_zero (Trade.avg_price t) = false.
Proof. apply trade_post_init_checks. Qed.

(** X17: a type error is reported before any value error: if some field has
    the wrong type the result is a [TypeError], whatever the action and the
    price are, and a [ValueError] is only raised on well-typed arguments. *)
Theorem trade_type_errors_first (t : Trade.Trade) :
  (Trade.well_typed t = false ->
   Trade.is_type_error (Trade.__post_init__ t) = true)
  /\ (Trade.is_value_error (Trade.__post_init__ t) = true ->
      Trade.well_typed t = true).
Proof.
  unfold Trade.__post_init__, Trade.well_typed.
  do 10 (next_check; [|split; [done | discriminate]]).
  split; [discriminate | done].
Qed.

(** X18: the check [avg_price <= 0] lets NaN and positive infinity through:
    a well-typed trade with a valid action and such a price is accepted. *)
Theorem trade_accepts_nan_price (t : Trade.Trade) :
  Trade.well_typed t = true ->
  str_in (Trade.action t) ["BUY"; "SELL"; "LONG"; "SHORT"; "COVER"] = true ->
  Trade.avg_price t = PFloat NaN \/ Trade.avg_price t = PFloat PosInf ->
  Trade.__post_init__ t = Ok tt.
Proof.
  intros Htyped Haction Hprice. apply trade_post_init_checks.
  split; [done|]. split; [done|]. by destruct Hprice as [-> | ->].
Qed.

Lemma trade_accepts_nan_price_witness :
  Trade.__post_init__
    {| Trade.timestamp := PInt 16555000000000000; Trade.trade_id := PInt 1;
       Trade.leg_id := PInt 2; Trade.instrument := PInt 1;
       Trade.quantity := PInt 10; Trade.avg_price := PFloat NaN;
       Trade.trade_value := PFloat (Finite 900.90%Q); Trade.trade_cost := PInt 400;
       Trade.action := PStr "SELL"; Trade.fees := PFloat (Finite 9.87%Q) |}
  = Ok tt.
Proof.
  apply (trade_accepts_nan_price
           {| Trade.timestamp := PInt 16555000000000000; Trade.trade_id := PInt 1;
              Trade.leg_id := PInt 2; Trade.instrument := PInt 1;
              Trade.quantity := PInt 10; Trade.avg_price := PFloat NaN;
              Trade.trade_value := PFloat (Finite 900.90%Q);
              Trade.trade_cost := PInt 400;
              Trade.action := PStr "SELL"; Trade.fees := PFloat (Finite 9.87%Q) |}).
  - reflexivity.
  - reflexivity.
  - left. reflexivity.
Defined.

(** The unit tests of the class: the trade of [setUp] is accepted; a string
    for [trade_id] is a [TypeError] with the message of the test; the action
    ["long"] and the price [0.0] are [ValueError]s. *)
Example trade_unit_tests :
  Trade.__post_init__ Trade.test_trade = Ok tt
  /\ Trade.__post_init__
       {| Trade.timestamp := PInt 16555000000000000; Trade.trade_id := PStr "1";
          Trade.leg_id := PInt 2; Trade.instrument := PInt 1;
          Trade.quantity := PInt 10; Trade.avg_price := PFloat (Finite 85.98%Q);
          Trade.trade_value := PFloat (Finite 900.90%Q);
          Trade.trade_cost := PInt 400; Trade.action := PStr "BUY";
          Trade.fees := PFloat (Finite 9.87%Q) |}
     = Raise (TypeError "'trade_id' field must be of type int.")
  /\ Trade.is_value_error
       (Trade.__post_init__
          {| Trade.timestamp := PInt 16555000000000000; Trade.trade_id := PInt 1;
             Trade.leg_id := PInt 2; Trade.instrument := PInt 1;
             Trade.quantity := PInt 10; Trade.avg_price := PFloat (Finite 85.98%Q);
             Trade.trade_value := PFloat (Finite 900.90%Q);
             Trade.trade_cost := PInt 400; Trade.action := PStr "long";
             Trade.fees := PFloat (Finite 9.87%Q) |}) = true
  /\ Trade.__post_init__
       {| Trade.timestamp := PInt 16555000000000000; Trade.trade_id := PInt 1;
          Trade.leg_id := PInt 2; Trade.instrument := PInt 1;
          Trade.quantity := PInt 10; Trade.avg_price := PFloat (Finite 0);
          Trade.trade_value := PFloat (Finite 900.90%Q);
          Trade.trade_cost := PInt 400; Trade.action := PStr "BUY";
          Trade.fees := PFloat (Finite 9.87%Q) |}
     = Raise (ValueError "'avg_price' field must be greater than zero.").
Proof. repeat split; vm_compute; reflexivity. Qed.

(** X19: the defaults of the dataclass cannot be used: a [Position] built
    from its five required fields alone, the two multipliers and the initial
    margin left at [None], is always refused with a [TypeError]. *)
Theorem position_defaults_refused (action avg_cost quantity total_cost market_value : pyval) :
  Trade.is_type_error
    (PositionInit.__post_init__
       (PositionInit.with_defaults action avg_cost quantity total_cost market_value))
  = true.
Proof.
  unfold PositionInit.__post_init__, PositionInit.with_defaults. cbn.
  do 3 (next_check; [|done]). done.
Qed.

(** X20: [Position(...)] is accepted exactly when each field has the type its
    check asks for, the action is BUY or SELL, neither multiplier is [<= 0]
    and the initial margin is not [< 0]; every constructed [Position] has
    these properties. *)
Theorem position_accepted_iff (p : PositionInit.Position) :
  PositionInit.__post_init__ p = Ok tt
  <-> PositionInit.well_typed p = true
      /\ str_in (PositionInit.action p) ["BUY"; "SELL"] = true
      /\ le_zero (PositionInit.price_multiplier p) = false
      /\ le_zero (PositionInit.quantity_multiplier p) = false
      /\ lt_zero (PositionInit.initial_margin p) = false.
Proof.
  unfold PositionInit.__post_init__, PositionInit.well_typed.
  repeat (next_check;
          [|split; [discriminate | intros (? & ? & ? & ? & ?); discriminate]]).
  repeat (next_bound;
          [split; [discriminate | intros (? & ? & ? & ? & ?); discriminate]|]).
  done.
Qed.

Example position_accepted :
  PositionInit.__post_init__ PositionInit.long_futures = Ok tt.
Proof. vm_compute. reflexivity. Qed.

End ValidationFacts.

(** ** Position equality and [to_dict] *)

Module PortfolioMore.
Import Portfolio.

Section WithNumbers.
Context `{PyNum}.

(** X21: when [==] on numbers is reflexive, symmetric and transitive,
    [Position.__eq__] is an equivalence on positions. *)
Theorem position_eq_equivalence :
  (forall a : number, py_eq a a = true) ->
  (forall a b : number, py_eq a b = py_eq b a) ->
  (forall a b c : number, py_eq a b = true -> py_eq b c = true -> py_eq a c = true) ->
  (forall p : Position, __eq__ p (PositionObj p) = true)
  /\ (forall p q : Position, __eq__ p (PositionObj q) = __eq__ q (PositionObj p))
  /\ (forall p q r : Position,
        __eq__ p (PositionObj q) = true -> __eq__ q (PositionObj r) = true ->
        __eq__ p (PositionObj r) = true).
Proof.
  intros Hrefl Hsym Htrans. split; [|split].
  - intros p. apply PortfolioFacts.eq_true_iff.
    unfold compared_fields_equal. rewrite !Hrefl. tauto.
  - intros p q. unfold __eq__.
    rewrite (Hsym (avg_cost p)), (Hsym (quantity p)), (Hsym (price_multiplier p)),
      (Hsym (initial_margin p)), (Hsym (total_cost p)).
    by rewrite (String.eqb_sym (action p)), (Z.eqb_sym (quantity_multiplier p)).
  - intros p q r Hpq Hqr.
    apply PortfolioFacts.eq_true_iff in Hpq as (Ha & Hc & Hq & Hpm & Hqm & Him & Htc).
    apply PortfolioFacts.eq_true_iff in Hqr as (Ha' & Hc' & Hq' & Hpm' & Hqm' & Him' & Htc').
    apply PortfolioFacts.eq_true_iff. unfold compared_fields_equal.
    repeat split; try congruence; by eapply Htrans.
Qed.

(** X22: [p == q] says that the dicts of [p] and [q] agree, under [==], on
    every key but [market_value]. *)
Theorem position_eq_is_dict_agreement (p q : Position) :
  __eq__ p (PositionObj q) = true
  <-> forall key : string,
        key ∈ (to_dict p).*1 -> key <> "market_value" ->
        exists a b,
          getitem (to_dict p) key = Some a
          /\ getitem (to_dict q) key = Some b
          /\ field_eq a b = true.
Proof.
  rewrite PortfolioFacts.eq_true_iff. unfold compared_fields_equal. split.
  - intros (Ha & Hc & Hq & Hpm & Hqm & Him & Htc) key Hkey Hnot.
    cbn in Hkey. rewrite !elem_of_cons, elem_of_nil in Hkey.
    destruct Hkey as [->|[->|[->|[->|[->|[->|[->|[->|[]]]]]]]]];
      try done; eexists _, _; (split; [reflexivity|]); (split; [reflexivity|]);
      cbn [field_eq]; try done.
    + by apply String.eqb_eq.
    + by apply Z.eqb_eq.
  - intros Hall.
    assert (forall key : string,
               key ∈ ["action"; "avg_cost"; "quantity"; "total_cost";
                      "price_multiplier"; "quantity_multiplier"; "initial_margin"] ->
               exists a b,
                 getitem (to_dict p) key = Some a
                 /\ getitem (to_dict q) key = Some b
                 /\ field_eq a b = true) as Hkeys.
    { intros key Hkey. apply Hall.
      - cbn. rewrite !elem_of_cons, elem_of_nil in Hkey.
        rewrite !elem_of_cons. tauto.
      - rewrite !elem_of_cons, elem_of_nil in Hkey.
        destruct Hkey as [->|[->|[->|[->|[->|[->|[->|[]]]]]]]]; done. }
    destruct (Hkeys "action") as (? & ? & [= <-] & [= <-] & Ha);
      [rewrite !elem_of_cons; tauto|].
    destruct (Hkeys "avg_cost") as (? & ? & [= <-] & [= <-] & Hc);
      [rewrite !elem_of_cons; tauto|].
    destruct (Hkeys "quantity") as (? & ? & [= <-] & [= <-] & Hq);
      [rewrite !elem_of_cons; tauto|].
    destruct (Hkeys "total_cost") as (? & ? & [= <-] & [= <-] & Htc);
      [rewrite !elem_of_cons; tauto|].
    destruct (Hkeys "price_multiplier") as (? & ? & [= <-] & [= <-] & Hpm);
      [rewrite !elem_of_cons; tauto|].
    destruct (Hkeys "quantity_multiplier") as (? & ? & [= <-] & [= <-] & Hqm);
      [rewrite !elem_of_cons; tauto|].
    destruct (Hkeys "initial_margin") as (? & ? & [= <-] & [= <-] & Him);
      [rewrite !elem_of_cons; tauto|].
    cbn [field_eq] in *.
    apply String.eqb_eq in Ha. apply Z.eqb_eq in Hqm. done.
Qed.

End WithNumbers.

Lemma position_eq_equivalence_witness :
  (forall p : Position (H := Q_PyNum), __eq__ p (PositionObj p) = true)
  /\ (forall p q : Position (H := Q_PyNum),
        __eq__ p (PositionObj q) = __eq__ q (PositionObj p))
  /\ (forall p q r : Position (H := Q_PyNum),
        __eq__ p (PositionObj q) = true -> __eq__ q (PositionObj r) = true ->
        __eq__ p (PositionObj r) = true).
Proof.
  apply (position_eq_equivalence (H := Q_PyNum)).
  - intros a. apply Qeq_bool_iff. reflexivity.
  - intros a b. cbn. destruct (Qeq_bool a b) eqn:Hab.
    + symmetry. apply Qeq_bool_iff. symmetry. by apply Qeq_bool_iff.
    + symmetry. apply not_true_is_false. intros Hba.
      apply Qeq_bool_iff in Hba. symmetry in Hba.
      apply Qeq_bool_iff in Hba. cbn in Hab. congruence.
  - intros a b c Hab Hbc. apply Qeq_bool_iff.
    apply Qeq_bool_iff in Hab. apply Qeq_bool_iff in Hbc. by rewrite Hab.
Defined.

End PortfolioMore.

(** ** Emission when the event constructor can refuse *)

Module EmissionFacts.
Import OrderManager OrderManagerFacts.

Section Engine.
Context `{PyNum}.
Variables Contract BaseOrder : Type.
Variable new_order_event :
  Z -> Z -> Z -> Action -> Contract -> BaseOrder -> Result (OrderEvent Contract BaseOrder).

Local Abbreviation World := (OrderManager.World Contract BaseOrder).
Local Abbreviation OrderDetails := (OrderManager.OrderDetails Contract BaseOrder).
Local Abbreviation OrderEvent := (OrderManager.OrderEvent Contract BaseOrder).
Local Abbreviation set_orders :=
  (OrderManager.set_orders Contract BaseOrder new_order_event).
Local Abbreviation set_orders_guarded :=
  (OrderManager.set_orders_guarded Contract BaseOrder new_order_event).
Local Abbreviation built := (OrderManager.built Contract BaseOrder new_order_event).

Lemma with_bus_with_bus (w : World) b1 b2 :
  with_bus (with_bus w b1) b2 = with_bus w b2.
Proof. reflexivity. Qed.

(** The loop of [_handle_signal] raises exactly the [RuntimeError] that
    [set_orders_guarded] reports, in the same world. *)
Lemma set_orders_raises_what_guarded_reports (orders : list OrderDetails) :
  forall w : World,
    set_orders orders w
    = match set_orders_guarded orders w with
      | (Emitted, w') => (Ok tt, w')
      | (RuntimeErrorRaised prefix cause, w') =>
          (Raise (RuntimeError prefix cause), w')
      end.
Proof.
  induction orders as [|od orders IH]; intros w; [done|].
  cbn [OrderManager.set_orders OrderManager.set_orders_guarded].
  unfold bind at 1. unfold _set_order, _set_order_guarded.
  destruct (new_order_event _ _ _ _ _ _) as [o|[]]; try done.
  unfold publish. cbn [snd]. apply IH.
Qed.

(** When the constructor accepts every order, one ORDER each is published. *)
Lemma emission_complete (orders : list OrderDetails) (events : list OrderEvent) :
  forall w : World,
    Forall2 (fun od o => built od = Ok o) orders events ->
    set_orders_guarded orders w
    = (Emitted, with_bus w (bus w ++ map order_message events)).
Proof.
  intros w Hbuilt. revert w.
  induction Hbuilt as [|od o orders events Hod _ IH]; intros w.
  - cbn. by rewrite app_nil_r, with_bus_id.
  - cbn [OrderManager.set_orders_guarded]. unfold _set_order_guarded.
    unfold OrderManager.built in Hod. rewrite Hod.
    unfold publish. cbn [snd]. rewrite IH, with_bus_with_bus.
    cbn [bus with_bus map]. by rewrite <- app_assoc.
Qed.

(** X23: the emitting loop is not atomic when the event constructor can
    refuse: if the constructor accepts the first orders and raises on the
    next one, [_set_order] raises [RuntimeError] for that one, the ORDER
    events of the orders before it are already on the bus and stay there,
    and nothing is published for the refused order or for those after it. *)
Theorem emission_stops_at_first_refusal
    (accepted rest : list OrderDetails) (od : OrderDetails)
    (events : list OrderEvent) (e : Exn) (w : World) :
  Forall2 (fun od o => built od = Ok o) accepted events ->
  built od = Raise e ->
  exists prefix,
    set_orders_guarded (accepted ++ od :: rest) w
    = (RuntimeErrorRaised prefix e,
       with_bus w (bus w ++ map order_message events)).
Proof.
  intros Hbuilt Hod. revert w.
  induction Hbuilt as [|od0 o accepted events Hod0 _ IH]; intros w.
  - cbn [app OrderManager.set_orders_guarded]. unfold _set_order_guarded.
    unfold OrderManager.built in Hod. rewrite Hod.
    cbn [map]. rewrite app_nil_r, with_bus_id.
    destruct e; eauto.
  - cbn [app OrderManager.set_orders_guarded]. unfold _set_order_guarded at 1.
    unfold OrderManager.built in Hod0. rewrite Hod0.
    unfold publish. cbn [snd].
    destruct (IH (with_bus w (bus w ++ [(ORDER, OrderPayload o)])))
      as [prefix Hrun].
    exists prefix. rewrite Hrun, with_bus_with_bus.
    cbn [bus with_bus map]. by rewrite <- app_assoc.
Qed.

End Engine.

Lemma emission_stops_at_first_refusal_witness :
  exists prefix,
    set_orders_guarded string Q demo_new_order_event
      ([demo_details 1 1 "A"] ++ demo_details 0 2 "B" :: [demo_details 1 3 "A"])
      (demo_world 1000%Q ∅)
    = (RuntimeErrorRaised prefix
         (ValueError "'trade_id' and 'leg_id' must be greater than zero."),
       with_bus (demo_world 1000%Q ∅)
         ([] ++ map order_message
                  [ {| oe_timestamp := 1712850060000000000; oe_trade_id := 1;
                       oe_leg_id := 1; oe_action := BUY; oe_contract := "A";
                       oe_order := 10%Q |} ])).
Proof.
  apply (emission_stops_at_first_refusal (H := Q_PyNum) string Q
           demo_new_order_event [demo_details 1 1 "A"] [demo_details 1 3 "A"]
           (demo_details 0 2 "B")).
  - repeat constructor.
  - reflexivity.
Defined.

End EmissionFacts.

(** ** The engine of [main_engine.py] *)

Module MainEngineFacts.
Import Py MainEngine.

(** No method gives an engine the attributes [live_data_client] or
    [database_updater], and every engine has its logger. *)
Lemma reachable_attrs (self : Engine) :
  reachable self ->
  attrs self !! "live_data_client" = None
  /\ attrs self !! "database_updater" = None
  /\ is_Some (attrs self !! "logger").
Proof.
  induction 1 as [| self _ (Hl & Hd & Hg) | self _ (Hl & Hd & Hg)].
  - vm_compute. eauto.
  - unfold _live_loop_enter, setattr. cbn [attrs].
    rewrite !lookup_insert_ne by done. done.
  - unfold _signal_handler, setattr. cbn [attrs].
    rewrite !lookup_insert_ne by done. done.
Qed.

(** X24: on every engine the class produces, [stop] returns only in backtest
    mode; in live mode it raises [AttributeError] for [live_data_client],
    which nothing ever assigns; and the part of [_live_loop] that follows its
    loop raises [AttributeError] for [database_updater]. *)
Theorem live_shutdown_raises (self : Engine) :
  reachable self ->
  (stop self = Returned <-> mode self = BACKTEST)
  /\ (mode self = LIVE -> stop self = Raised (AttributeError "live_data_client"))
  /\ _live_loop_exit self = Raised (AttributeError "database_updater").
Proof.
  intros Hreach.
  destruct (reachable_attrs self Hreach) as (Hl & Hd & [logger Hg]).
  unfold stop, _live_loop_exit, getattr. rewrite Hl, Hd, Hg.
  destruct (mode self); repeat split; done.
Qed.

Lemma interrupted_live_engine_reachable : reachable interrupted_live_engine.
Proof.
  unfold interrupted_live_engine.
  apply reach_signal, reach_live_loop, reach_init.
Qed.

Lemma live_shutdown_raises_witness :
  (stop interrupted_live_engine = Returned
   <-> mode interrupted_live_engine = BACKTEST)
  /\ (mode interrupted_live_engine = LIVE ->
      stop interrupted_live_engine = Raised (AttributeError "live_data_client"))
  /\ _live_loop_exit interrupted_live_engine
     = Raised (AttributeError "database_updater").
Proof.
  apply (live_shutdown_raises interrupted_live_engine).
  apply interrupted_live_engine_reachable.
Defined.

End MainEngineFacts.
